(** * Subscription activation pipeline of the VPN bot

    A shallow embedding of the payment webhook, the admin extension and
    the purchase handler ([backend/main.py]), the 3X-UI provisioning
    client ([backend/xui_client.py]), the payment gateway client
    ([backend/yookassa_client.py]), the ORM rows ([backend/models.py]) and
    the bot's extension dialogue and tariff buttons ([bot/main.py]),
    followed by the properties the specification states about them and
    by further properties of the same code.

    Conventions of the embedding.
    - A [datetime] is a number of microseconds ([Z]); [timedelta(days=d)]
      is [d] times 86 400 000 000.  The calendar range of Python's
      [datetime] (years 1 to 9999) is not represented.
    - Every [datetime.utcnow()] call is a separate reading of the world's
      clock: the k-th call of a run reads [clock w (k + ticks w)].
    - A SQLAlchemy session is a pair of stores: [live] holds what the
      identity map and the pending flush hold, [durable] what the last
      [commit()] wrote.  A loaded row object is its position in its table.
    - [float] arithmetic and [datetime.timestamp()] are left abstract in
      the class [PyRuntime]; the remote panel is the class [Panel].
    - Text is ASCII: characters above 127 are neither digits nor blanks.
    - The loguru sink called at the end of [log_action] is an output of the
      process, not of the ledger; it is taken to return normally.
    - The payment gateway is the class [Gateway].  The columns declared
      [unique] make a commit fail that would store a value twice; the
      primary keys the database assigns to new rows are inputs of the
      handler that inserts them. *)

From stdpp Require Import base numbers list strings.
From Stdlib Require Import ZArith Lia Ascii String DecimalString DecimalPos.

Open Scope Z_scope.

(** ** Python builtins used by the sources *)

Module Py.

(** Exceptions that the modelled code raises or lets through. *)
Inductive Exn :=
| JSONDecodeError
| AttributeError
| ValueError
| TypeError
| ZeroDivisionError
| HTTPException (status_code : Z) (detail : string)
| ClientError (text : string).

(** [str.isspace] on one ASCII character: TAB..CR, FS..US and the blank. *)
Definition is_space (c : ascii) : bool :=
  let n := Z.of_nat (nat_of_ascii c) in
  ((9 <=? n) && (n <=? 13)) || ((28 <=? n) && (n <=? 32)).

(** The value of a decimal digit, if [c] is one. *)
Definition digit_value (c : ascii) : option Z :=
  let n := Z.of_nat (nat_of_ascii c) in
  if (48 <=? n) && (n <=? 57) then Some (n - 48) else None.

Fixpoint lstrip (l : list ascii) : list ascii :=
  match l with
  | c :: l' => if is_space c then lstrip l' else l
  | [] => []
  end.

Definition rstrip (l : list ascii) : list ascii := rev (lstrip (rev l)).

(** [str.strip()] with no argument. *)
Definition strip (s : string) : string :=
  string_of_list_ascii (rstrip (lstrip (list_ascii_of_string s))).

(** Digits of an integer literal: a digit, then digits each optionally
    preceded by one underscore.  [after_digit] tells whether the previous
    character was a digit. *)
Fixpoint int_digits (l : list ascii) (acc : Z) (after_digit : bool) : option Z :=
  match l with
  | [] => if after_digit then Some acc else None
  | c :: l' =>
      match digit_value c with
      | Some d => int_digits l' (10 * acc + d) true
      | None =>
          if (Ascii.eqb c "_"%char) && after_digit
          then int_digits l' acc false
          else None
      end
  end.

(** [int(s)] for a [str] in base 10; [None] stands for [ValueError]. *)
Definition int (s : string) : option Z :=
  match rstrip (lstrip (list_ascii_of_string s)) with
  | c :: l' =>
      if Ascii.eqb c "-"%char then Z.opp <$> int_digits l' 0 false
      else if Ascii.eqb c "+"%char then int_digits l' 0 false
      else int_digits (c :: l') 0 false
  | [] => None
  end.

(** [s.split(sep)] for a one-character separator: the pieces between the
    separators, an empty string giving one empty piece. *)
Fixpoint split_chars (sep : ascii) (l : list ascii) (piece : list ascii) : list string :=
  match l with
  | [] => [string_of_list_ascii (rev piece)]
  | c :: l' =>
      if Ascii.eqb c sep
      then string_of_list_ascii (rev piece) :: split_chars sep l' []
      else split_chars sep l' (c :: piece)
  end.

Definition split (sep : ascii) (s : string) : list string :=
  split_chars sep (list_ascii_of_string s) [].

(** Truth value of a [str]. *)
Definition str_truthy (s : string) : bool :=
  match s with EmptyString => false | _ => true end.

(** Truth value of an optional [str] ([None] is false). *)
Definition truthy (o : option string) : bool :=
  match o with Some s => str_truthy s | None => false end.

End Py.

(** ** What the model leaves abstract *)

(** The parts of the Python runtime that are not computed here: IEEE-754
    double arithmetic ([float]) and [datetime.timestamp()] in milliseconds,
    which for the naive datetimes of the sources depends on the host's time
    zone and on float rounding. *)
Class PyRuntime := {
  float : Type;
  float_add : float → float → float;
  float_mul : float → float → float;
  float_truediv : float → float → float;
  float_of_int : Z → float;
  timestamp_ms : Z → Z;
}.

(** One day as a [timedelta], in microseconds. *)
Definition timedelta (days : Z) : Z := days * 86400000000.

(** ** backend/xui_client.py *)

Module Xui.

(** The two requests [create_or_update_client] sends through
    [_make_request]: [add_client] and [update_client]. *)
Inductive PanelCall :=
| AddClient (inbound_id : Z) (email : string) (expiry_time : Z) (flow : string)
| UpdateClient (inbound_id : Z) (email : string) (expiry_time : Z).

(** What [_make_request] does: return the decoded body, or raise
    [ClientError text]. *)
Inductive PanelReply :=
| Json (body : string)
| Fails (text : string).

(** The remote 3X-UI panel: any state, any reaction to a request. *)
Class Panel := {
  PanelState : Type;
  make_request : PanelCall → PanelState → PanelReply * PanelState;
}.

(** One element of [results]: the dict with keys [inbound_id], [status]
    and [result] or [error]; [error] is kept as the exception whose [str]
    the source stores. *)
Inductive Entry :=
| Created (inbound_id : Z) (result : string)
| Updated (inbound_id : Z) (result : string)
| Error (inbound_id : Z) (error : Py.Exn).

Inductive Status := created | updated | error.

Definition inbound_id (e : Entry) : Z :=
  match e with Created i _ | Updated i _ | Error i _ => i end.

Definition status (e : Entry) : Status :=
  match e with Created _ _ => created | Updated _ _ => updated | Error _ _ => error end.

(** The dict [create_or_update_client] returns. *)
Record Outcome := {
  email : string;
  expiry_time : Z;
  results : list Entry;
}.

End Xui.

(** ** backend/models.py *)

(** Columns filled by the database server ([created_at], [updated_at]) are
    left out.  [config_links] holds [json.dumps] of a provisioning outcome;
    the model keeps the outcome that text encodes. *)

Module User.
Record t `{PyRuntime} := mk {
  id : Z;
  telegram_id : string;
  email : string;
  subscription_active : bool;
  subscription_end_date : option Z;
  total_purchases : float;
  renewal_count : Z;
  config_links : option Xui.Outcome;
}.
End User.

Module Payment.
Record t `{PyRuntime} := mk {
  id : Z;
  yookassa_payment_id : string;
  user_id : Z;
  amount : float;
  currency : string;
  status : string;
  tariff_id : Z;
  paid_at : option Z;
}.
End Payment.

Module Tariff.
Record t `{PyRuntime} := mk {
  id : Z;
  name : string;
  price : float;
  duration_days : Z;
  inbound_ids : string;
  active : bool;
}.
End Tariff.

Module Log.
Inductive Level := INFO | WARNING | ERROR.

(** The f-string of each [log_action] call, with the values it prints. *)
Inductive Message :=
| UnknownPayment (payment_id : string)
| Activated (telegram_id payment_id : string)
| StatusChanged (payment_id old_status status : string)
| WebhookFailed (e : Py.Exn)
| Extended (telegram_id : string) (days : Z).

Record t := mk {
  level : Level;
  message : Message;
  source : string;
}.
End Log.

(** ** The database session and the world a handler runs in *)

Record Store `{PyRuntime} := {
  users : list User.t;
  payments : list Payment.t;
  tariffs : list Tariff.t;
  logs : list Log.t;
}.

Record Session `{PyRuntime} := {
  live : Store;
  durable : Store;
}.

Record World `{PyRuntime} `{Xui.Panel} := {
  db : Session;
  panel : Xui.PanelState;
  clock : nat → Z;
  ticks : nat;
}.

(** The k-th clock reading a handler started in [w] will take. *)
Definition reading `{PyRuntime} `{Xui.Panel} (w : World) (k : nat) : Z :=
  clock w (k + ticks w)%nat.

(** ** Computations: state and exceptions *)

Inductive Result (A : Type) :=
| Return (a : A)
| Raise (e : Py.Exn).
Arguments Return {A} a.
Arguments Raise {A} e.

Definition M `{PyRuntime} `{Xui.Panel} (A : Type) : Type :=
  World → Result A * World.

Section Monad.
Context `{RT : PyRuntime} `{PN : Xui.Panel}.

#[export] Instance M_ret : MRet M := λ A a w, (Return a, w).

#[export] Instance M_bind : MBind M := λ A B f m w,
  match m w with
  | (Return a, w') => f a w'
  | (Raise e, w') => (Raise e, w')
  end.

Definition raise {A} (e : Py.Exn) : M A := λ w, (Raise e, w).

(** [try: m except Exception as e: h e]. *)
Definition try_except {A} (m : M A) (h : Py.Exn → M A) : M A := λ w,
  match m w with
  | (Return a, w') => (Return a, w')
  | (Raise e, w') => h e w'
  end.

(** [datetime.utcnow()]. *)
Definition utcnow : M Z := λ w,
  (Return (clock w (ticks w)),
   {| db := db w; panel := panel w; clock := clock w; ticks := S (ticks w) |}).

Definition with_db (s : Session) (w : World) : World :=
  {| db := s; panel := panel w; clock := clock w; ticks := ticks w |}.

Definition with_live (st : Store) (s : Session) : Session :=
  {| live := st; durable := durable s |}.

(** Read the session's current view of the tables. *)
Definition store : M Store := λ w, (Return (live (db w)), w).

(** Change rows held by the session (attribute assignment, [db.add]). *)
Definition modify (f : Store → Store) : M unit := λ w,
  (Return (), with_db (with_live (f (live (db w))) (db w)) w).

(** [db.commit()]: everything pending becomes durable. *)
Definition commit : M unit := λ w,
  (Return (), with_db {| live := live (db w); durable := live (db w) |} w).

End Monad.

(** ** backend/xui_client.py, continued *)

Module XUIClient.
Section Client.
Context `{RT : PyRuntime} `{PN : Xui.Panel}.

(** [_make_request] for the POST requests of this client. *)
Definition _make_request (call : Xui.PanelCall) : M string := λ w,
  match Xui.make_request call (panel w) with
  | (Xui.Json body, ps) =>
      (Return body, {| db := db w; panel := ps; clock := clock w; ticks := ticks w |})
  | (Xui.Fails text, ps) =>
      (Raise (Py.ClientError text),
       {| db := db w; panel := ps; clock := clock w; ticks := ticks w |})
  end.

Definition add_client (inbound_id : Z) (email : string) (expiry_time : Z) : M string :=
  _make_request (Xui.AddClient inbound_id email expiry_time "auto").

Definition update_client (inbound_id : Z) (email : string) (expiry_time : Z) : M string :=
  _make_request (Xui.UpdateClient inbound_id email expiry_time).

Definition calculate_expiry_timestamp (days : Z) : M Z :=
  now ← utcnow;
  mret (timestamp_ms (now + timedelta days)).

(** The body of the [for] loop of [create_or_update_client]: the entry
    appended to [results] for one inbound. *)
Definition provision_one (inbound_id : Z) (email : string) (expiry_time : Z) : M Xui.Entry :=
  try_except
    (result ← add_client inbound_id email expiry_time;
     mret (Xui.Created inbound_id result))
    (λ e,
       try_except
         (result ← update_client inbound_id email expiry_time;
          mret (Xui.Updated inbound_id result))
         (λ update_e, mret (Xui.Error inbound_id update_e))).

(** The [for] loop, appending to [results]. *)
Fixpoint provision_loop (inbound_ids : list Z) (email : string) (expiry_time : Z)
    (results : list Xui.Entry) : M (list Xui.Entry) :=
  match inbound_ids with
  | [] => mret results
  | inbound_id :: rest =>
      entry ← provision_one inbound_id email expiry_time;
      provision_loop rest email expiry_time (results ++ [entry])
  end.

Definition create_or_update_client (inbound_ids : list Z) (email : string) (days : Z)
    : M Xui.Outcome :=
  expiry_time ← calculate_expiry_timestamp days;
  results ← provision_loop inbound_ids email expiry_time [];
  mret {| Xui.email := email; Xui.expiry_time := expiry_time; Xui.results := results |}.

End Client.
End XUIClient.

(** ** backend/main.py *)

Module Backend.

(** The module-level settings read from the environment. *)
Record Config := {
  XUI_URL : option string;
  XUI_TOKEN : option string;
}.

(** The value under the key [object] of a notification, as far as the
    handler looks at it.  [id] and [status] are strings when present;
    [None] stands for a missing key or [null]. *)
Inductive Obj :=
| ObjDict (id status : option string)
| ObjOther.

(** The body of a webhook request: not JSON at all, JSON that is no dict,
    or a dict, with or without the key [object]. *)
Inductive Body :=
| Malformed
| NotADict
| Dict (object : option Obj).

(** A returned dict, and the HTTP response FastAPI makes of a handler's
    outcome. *)
Definition Reply := list (string * string).

Record Response := {
  status_code : Z;
  content : Reply;
}.

Definition respond (r : Result Reply) : Response :=
  match r with
  | Return body => {| status_code := 200; content := body |}
  | Raise (Py.HTTPException code detail) =>
      {| status_code := code; content := [("detail", detail)] |}
  | Raise _ => {| status_code := 500; content := [("detail", "Internal Server Error")] |}
  end.

(** A notification whose [object] carries both strings. *)
Definition notification (payment_id status : string) : Body :=
  Dict (Some (ObjDict (Some payment_id) (Some status))).

Section Handlers.
Context `{RT : PyRuntime} `{PN : Xui.Panel}.

(** *** Attribute assignments on loaded rows *)

Definition set_status (status : string) (p : Payment.t) : Payment.t :=
  {| Payment.id := Payment.id p;
     Payment.yookassa_payment_id := Payment.yookassa_payment_id p;
     Payment.user_id := Payment.user_id p;
     Payment.amount := Payment.amount p;
     Payment.currency := Payment.currency p;
     Payment.status := status;
     Payment.tariff_id := Payment.tariff_id p;
     Payment.paid_at := Payment.paid_at p |}.

Definition set_paid_at (now : Z) (p : Payment.t) : Payment.t :=
  {| Payment.id := Payment.id p;
     Payment.yookassa_payment_id := Payment.yookassa_payment_id p;
     Payment.user_id := Payment.user_id p;
     Payment.amount := Payment.amount p;
     Payment.currency := Payment.currency p;
     Payment.status := Payment.status p;
     Payment.tariff_id := Payment.tariff_id p;
     Payment.paid_at := Some now |}.

Definition set_subscription_end_date (new_end : Z) (u : User.t) : User.t :=
  {| User.id := User.id u;
     User.telegram_id := User.telegram_id u;
     User.email := User.email u;
     User.subscription_active := User.subscription_active u;
     User.subscription_end_date := Some new_end;
     User.total_purchases := User.total_purchases u;
     User.renewal_count := User.renewal_count u;
     User.config_links := User.config_links u |}.

Definition set_subscription_active (b : bool) (u : User.t) : User.t :=
  {| User.id := User.id u;
     User.telegram_id := User.telegram_id u;
     User.email := User.email u;
     User.subscription_active := b;
     User.subscription_end_date := User.subscription_end_date u;
     User.total_purchases := User.total_purchases u;
     User.renewal_count := User.renewal_count u;
     User.config_links := User.config_links u |}.

Definition add_total_purchases (price : float) (u : User.t) : User.t :=
  {| User.id := User.id u;
     User.telegram_id := User.telegram_id u;
     User.email := User.email u;
     User.subscription_active := User.subscription_active u;
     User.subscription_end_date := User.subscription_end_date u;
     User.total_purchases := float_add (User.total_purchases u) price;
     User.renewal_count := User.renewal_count u;
     User.config_links := User.config_links u |}.

Definition add_renewal_count (n : Z) (u : User.t) : User.t :=
  {| User.id := User.id u;
     User.telegram_id := User.telegram_id u;
     User.email := User.email u;
     User.subscription_active := User.subscription_active u;
     User.subscription_end_date := User.subscription_end_date u;
     User.total_purchases := User.total_purchases u;
     User.renewal_count := User.renewal_count u + n;
     User.config_links := User.config_links u |}.

Definition set_config_links (result : Xui.Outcome) (u : User.t) : User.t :=
  {| User.id := User.id u;
     User.telegram_id := User.telegram_id u;
     User.email := User.email u;
     User.subscription_active := User.subscription_active u;
     User.subscription_end_date := User.subscription_end_date u;
     User.total_purchases := User.total_purchases u;
     User.renewal_count := User.renewal_count u;
     User.config_links := Some result |}.

(** Assignments to the payment object loaded from position [i]. *)
Definition update_payment (i : nat) (f : Payment.t → Payment.t) : M unit :=
  modify (λ st, {| users := users st; payments := alter f i (payments st);
                   tariffs := tariffs st; logs := logs st |}).

(** Assignments to the user object loaded from position [j]. *)
Definition update_user (j : nat) (f : User.t → User.t) : M unit :=
  modify (λ st, {| users := alter f j (users st); payments := payments st;
                   tariffs := tariffs st; logs := logs st |}).

(** *** Queries: [db.query(X).filter(...).first()]

    The first row that passes the filter, with its position. *)

Definition first_payment (payment_id : string) (st : Store) : option (nat * Payment.t) :=
  list_find (λ p, Payment.yookassa_payment_id p = payment_id) (payments st).

Definition first_user (user_id : Z) (st : Store) : option (nat * User.t) :=
  list_find (λ u, User.id u = user_id) (users st).

Definition first_tariff (tariff_id : Z) (st : Store) : option (nat * Tariff.t) :=
  list_find (λ t, Tariff.id t = tariff_id) (tariffs st).

Definition query_payment (payment_id : string) : M (option (nat * Payment.t)) :=
  st ← store;
  mret (first_payment payment_id st).

Definition query_user (user_id : Z) : M (option (nat * User.t)) :=
  st ← store;
  mret (first_user user_id st).

Definition query_tariff (tariff_id : Z) : M (option (nat * Tariff.t)) :=
  st ← store;
  mret (first_tariff tariff_id st).

(** *** [log_action] *)

Definition log_action (level : Log.Level) (message : Log.Message) (source : string)
    : M unit :=
  modify (λ st, {| users := users st; payments := payments st; tariffs := tariffs st;
                   logs := logs st ++ [Log.mk level message source] |});;
  commit.

(** *** The expiry computation, lines 174-177 and 349-352

    The same four lines stand in both handlers.  The comparison reads the
    clock only when an end date is stored ([and] short-circuits), and the
    [else] branch reads it again. *)
Definition extended_end_date (subscription_end_date : option Z) (days : Z) : M Z :=
  match subscription_end_date with
  | Some end_date =>
      now ← utcnow;
      if bool_decide (end_date > now)
      then mret (end_date + timedelta days)
      else (now' ← utcnow; mret (now' + timedelta days))
  | None => now' ← utcnow; mret (now' + timedelta days)
  end.

(** *** PUT /users/{user_id}/extend *)

Definition extend_user_subscription (user_id : Z) (days : Z) : M Reply :=
  user ← query_user user_id;
  match user with
  | None => raise (Py.HTTPException 404 "User not found")
  | Some (j, user) =>
      new_end ← extended_end_date (User.subscription_end_date user) days;
      update_user j (set_subscription_end_date new_end);;
      update_user j (set_subscription_active true);;
      update_user j (add_renewal_count 1);;
      commit;;
      log_action Log.INFO (Log.Extended (User.telegram_id user) days) "ADMIN";;
      mret [("message", "Subscription extended")]
  end.

(** *** POST /payments/yookassa/webhook *)

(** [[int(x.strip()) for x in inbound_ids.split(',') if x.strip()]]. *)
Definition inbound_id_list (inbound_ids : string) : option (list Z) :=
  mapM (λ x, Py.int (Py.strip x))
    (List.filter (λ x, Py.str_truthy (Py.strip x)) (Py.split ","%char inbound_ids)).

Definition parse_inbound_ids (inbound_ids : string) : M (list Z) :=
  match inbound_id_list inbound_ids with
  | Some ids => mret ids
  | None => raise Py.ValueError
  end.

Definition xui_configured (cfg : Config) : bool :=
  Py.truthy (XUI_URL cfg) && Py.truthy (XUI_TOKEN cfg).

(** Lines 348-367: the block under [if user and tariff]. *)
Definition activate (cfg : Config) (j : nat) (user : User.t) (tariff : Tariff.t)
    (payment_id : string) : M unit :=
  new_end ← extended_end_date (User.subscription_end_date user) (Tariff.duration_days tariff);
  update_user j (set_subscription_end_date new_end);;
  update_user j (set_subscription_active true);;
  update_user j (add_total_purchases (Tariff.price tariff));;
  update_user j (add_renewal_count 1);;
  (if xui_configured cfg then
     inbound_ids ← parse_inbound_ids (Tariff.inbound_ids tariff);
     result ← XUIClient.create_or_update_client inbound_ids (User.email user)
                (Tariff.duration_days tariff);
     update_user j (set_config_links result)
   else mret ());;
  commit;;
  log_action Log.INFO (Log.Activated (User.telegram_id user) payment_id) "WEBHOOK".

(** Lines 325-327: [request.json()] and the two chained [get]s. *)
Definition notification_fields (request : Body) : M (option string * option string) :=
  match request with
  | Malformed => raise Py.JSONDecodeError
  | NotADict => raise Py.AttributeError
  | Dict None => mret (None, None)
  | Dict (Some ObjOther) => raise Py.AttributeError
  | Dict (Some (ObjDict payment_id status)) => mret (payment_id, status)
  end.

Definition ok : Reply := [("status", "ok")].

(** Lines 333-373: from the payment lookup to the acknowledgment. *)
Definition apply_status (cfg : Config) (payment_id status : string) : M Reply :=
  payment ← query_payment payment_id;
  match payment with
  | None =>
      log_action Log.WARNING (Log.UnknownPayment payment_id) "WEBHOOK";;
      mret ok
  | Some (i, payment) =>
      let old_status := Payment.status payment in
      update_payment i (set_status status);;
      (if bool_decide (status = "succeeded") then
         now ← utcnow;
         update_payment i (set_paid_at now);;
         user ← query_user (Payment.user_id payment);
         tariff ← query_tariff (Payment.tariff_id payment);
         match user, tariff with
         | Some (j, user), Some (_, tariff) => activate cfg j user tariff payment_id
         | _, _ => mret ()
         end
       else mret ());;
      commit;;
      log_action Log.INFO (Log.StatusChanged payment_id old_status status) "WEBHOOK";;
      mret ok
  end.

(** The body of the [try] block. *)
Definition webhook_try (cfg : Config) (request : Body) : M Reply :=
  '(payment_id, status) ← notification_fields request;
  if negb (Py.truthy payment_id) || negb (Py.truthy status)
  then raise (Py.HTTPException 400 "Invalid webhook data")
  else apply_status cfg (default "" payment_id) (default "" status).

Definition yookassa_webhook (cfg : Config) (request : Body) : M Reply :=
  try_except (webhook_try cfg request)
    (λ e,
       log_action Log.ERROR (Log.WebhookFailed e) "WEBHOOK";;
       raise (Py.HTTPException 500 "Webhook processing failed")).

End Handlers.
End Backend.

(** ** bot/main.py: the extension dialogue *)

Module Bot.

(** The states of [PaymentState] and [ExtendState]; a chat with no state
    set is idle. *)
Inductive FsmState := waiting_for_tariff | waiting_for_days.

(** What [message.answer] sends in this dialogue. *)
Inductive Answer `{PyRuntime} :=
| AskDays
| Offer (days : Z) (total_price : float)
| TariffsUnavailable
| InvalidDays.

(** The two keys the handler reads in an element of the [/tariffs] reply. *)
Record TariffJson `{PyRuntime} := {
  price : float;
  duration_days : Z;
}.

Record Chat `{PyRuntime} := {
  state : option FsmState;
  sent : list Answer;
}.

Section Dialogue.
Context `{RT : PyRuntime}.

(** Lines 154-157. *)
Definition extend_subscription (chat : Chat) : Chat :=
  {| state := Some waiting_for_days; sent := sent chat ++ [AskDays] |}.

(** Lines 162-164: [int(message.text)] and the range check.  A message
    without text has [message.text] equal to [None]. *)
Definition days_of (text : option string) : Result Z :=
  match text with
  | None => Raise Py.TypeError
  | Some s =>
      match Py.int s with
      | None => Raise Py.ValueError
      | Some days =>
          if (days <? 1) || (days >? 365) then Raise Py.ValueError else Return days
      end
  end.

(** Lines 167-182; [tariffs] is what [get_tariffs()] returned, [None] for a
    reply other than 200. *)
Definition quote (tariffs : option (list TariffJson)) (days : Z) : Result Answer :=
  match tariffs with
  | Some (first :: _) =>
      if bool_decide (duration_days first = 0) then Raise Py.ZeroDivisionError
      else
        let price_per_day := float_truediv (price first) (float_of_int (duration_days first)) in
        let total_price := float_mul price_per_day (float_of_int days) in
        Return (Offer days total_price)
  | Some [] | None => Return TariffsUnavailable
  end.

(** The handler registered for [ExtendState.waiting_for_days].  Only
    [ValueError] is caught; [state.clear()] follows the [try] statement. *)
Definition process_extend_days (text : option string)
    (tariffs : option (list TariffJson)) (chat : Chat) : Result unit * Chat :=
  let attempt :=
    match days_of text with
    | Return days => quote tariffs days
    | Raise e => Raise e
    end in
  match attempt with
  | Return answer => (Return (), {| state := None; sent := sent chat ++ [answer] |})
  | Raise Py.ValueError => (Return (), {| state := None; sent := sent chat ++ [InvalidDays] |})
  | Raise e => (Raise e, chat)
  end.

End Dialogue.
End Bot.

(** ** backend/yookassa_client.py *)

(** The gateway's SDK is outside the sources.  What the [try] block of
    [create_payment] does with it, from building the request objects to
    reading the fields of the answer, either yields a payment object or
    raises; [Refused] stands for any exception raised there. *)
Module Yookassa.

(** What [create_payment] hands to [YookassaPayment.create]. *)
Record PaymentData `{PyRuntime} := {
  amount : float;
  currency : string;
  capture : bool;
  description : string;
  return_url : string;
}.

(** The fields of the SDK's payment object that the client reads;
    [D] is the SDK's decimal type. *)
Record PaymentObject (D : Type) := {
  id : string;
  status : string;
  amount_value : D;
  amount_currency : string;
  confirmation_url : string;
  created_at : string;
}.
Arguments id {D} _.
Arguments status {D} _.
Arguments amount_value {D} _.
Arguments amount_currency {D} _.
Arguments confirmation_url {D} _.
Arguments created_at {D} _.

Inductive Answer (D : Type) :=
| Accepted (payment : PaymentObject D)
| Refused (text : string).
Arguments Accepted {D} payment.
Arguments Refused {D} text.

(** The remote gateway: any state, any reaction to a creation request. *)
Class Gateway `{PyRuntime} := {
  Decimal : Type;
  GatewayState : Type;
  create : PaymentData → GatewayState → Answer Decimal * GatewayState;
}.

(** The dict [YookassaClient.create_payment] returns. *)
Record Created `{PyRuntime} `{!Gateway} := {
  payment_id : string;
  created_status : string;
  created_amount : Decimal;
  created_currency : string;
  created_confirmation_url : string;
  created_created_at : string;
}.

End Yookassa.

(** ** POST /payments/create *)

(** This handler talks to the gateway and can fail in ways the webhook
    cannot, so it runs in a wider world: the webhook's world, the gateway,
    and the log rows this handler writes, kept in a list of their own.
    Such a row remembers how many rows the webhook's log held when it was
    written, so the order of the log table is not lost. *)
Module Checkout.

Inductive Fault :=
| Exn (e : Py.Exn)
| IntegrityError
| GatewayError (text : string).

Inductive NoteMessage :=
| CreatedPayment (payment_id telegram_id : string).

Record Note := {
  after : nat;
  level : Log.Level;
  message : NoteMessage;
  source : string;
}.

Record Service `{PyRuntime} `{Xui.Panel} `{!Yookassa.Gateway} := {
  world : World;
  gateway : Yookassa.GatewayState;
  notes : list Note;
}.

Inductive Outcome (A : Type) :=
| Done (a : A)
| Failed (f : Fault).
Arguments Done {A} a.
Arguments Failed {A} f.

Definition H `{PyRuntime} `{Xui.Panel} `{!Yookassa.Gateway} (A : Type) : Type :=
  Service → Outcome A * Service.

(** The module-level settings of the gateway client. *)
Record Settings := {
  YOOKASSA_SHOP_ID : option string;
  YOOKASSA_SECRET_KEY : option string;
}.

(** The primary keys the database assigns to the rows a request
    inserts. *)
Record Keys := {
  new_user_id : Z;
  new_payment_id : Z;
}.

(** The dict the handler returns. *)
Record Reply `{PyRuntime} `{!Yookassa.Gateway} := {
  payment_id : string;
  confirmation_url : string;
  amount : Yookassa.Decimal;
}.

Section Handler.
Context `{RT : PyRuntime} `{PN : Xui.Panel} `{GW : !Yookassa.Gateway}.

#[export] Instance H_ret : MRet H := λ A a s, (Done a, s).

#[export] Instance H_bind : MBind H := λ A B f m s,
  match m s with
  | (Done a, s') => f a s'
  | (Failed x, s') => (Failed x, s')
  end.

Definition fail {A} (x : Fault) : H A := λ s, (Failed x, s).

(** A computation of the webhook's world, run inside the service. *)
Definition lift {A} (m : M A) : H A := λ s,
  match m (world s) with
  | (Return a, w') =>
      (Done a, {| world := w'; gateway := gateway s; notes := notes s |})
  | (Raise e, w') =>
      (Failed (Exn e), {| world := w'; gateway := gateway s; notes := notes s |})
  end.

(** A commit that fails rolls the transaction back: what was pending is
    lost. *)
Definition rollback : M unit := λ w,
  (Return (), with_db {| live := durable (db w); durable := durable (db w) |} w).

(** Lines 22-29 of the client: the request it builds.  The currency is
    always [Currency.RUB], whatever the [currency] argument. *)
Definition payment_request (amount : float) (description : string)
    : Yookassa.PaymentData :=
  {| Yookassa.amount := amount; Yookassa.currency := "RUB"; Yookassa.capture := true;
     Yookassa.description := description;
     Yookassa.return_url := "https://your-domain.com/payment/success" |}.

(** [YookassaClient.create_payment]: an exception is logged to the
    console and raised again. *)
Definition yookassa_create_payment (amount : float) (description : string)
    : H Yookassa.Created := λ s,
  match Yookassa.create (payment_request amount description) (gateway s) with
  | (Yookassa.Accepted payment, g) =>
      (Done {| Yookassa.payment_id := Yookassa.id payment;
               Yookassa.created_status := Yookassa.status payment;
               Yookassa.created_amount := Yookassa.amount_value payment;
               Yookassa.created_currency := Yookassa.amount_currency payment;
               Yookassa.created_confirmation_url := Yookassa.confirmation_url payment;
               Yookassa.created_created_at := Yookassa.created_at payment |},
       {| world := world s; gateway := g; notes := notes s |})
  | (Yookassa.Refused text, g) =>
      (Failed (GatewayError text), {| world := world s; gateway := g; notes := notes s |})
  end.

Definition yookassa_configured (settings : Settings) : bool :=
  Py.truthy (YOOKASSA_SHOP_ID settings) && Py.truthy (YOOKASSA_SECRET_KEY settings).

(** [db.query(User).filter(User.telegram_id == telegram_id).first()]. *)
Definition first_user_by_telegram (telegram_id : string) (st : Store)
    : option (nat * User.t) :=
  list_find (λ u, User.telegram_id u = telegram_id) (users st).

(** The row [User(telegram_id=..., email=...)] becomes: the given
    columns, the column defaults ([False], [0.0], [0], no end date, no
    links), and the key the database assigns. *)
Definition new_user (id : Z) (telegram_id email : string) : User.t :=
  {| User.id := id; User.telegram_id := telegram_id; User.email := email;
     User.subscription_active := false; User.subscription_end_date := None;
     User.total_purchases := float_of_int 0; User.renewal_count := 0;
     User.config_links := None |}.

(** [db.add(user); db.commit(); db.refresh(user)].  The unique columns
    [telegram_id] and [email] make the commit fail when a stored row
    already holds one of the values. *)
Definition insert_user (id : Z) (telegram_id email : string) : H User.t :=
  st ← lift store;
  if bool_decide (Exists (λ u, User.telegram_id u = telegram_id ∨ User.email u = email)
                    (users st))
  then lift rollback;; fail IntegrityError
  else
    lift (modify (λ st, {| users := users st ++ [new_user id telegram_id email];
                           payments := payments st; tariffs := tariffs st;
                           logs := logs st |}));;
    lift commit;;
    mret (new_user id telegram_id email).

(** The row [Payment(...)] becomes, with the default currency. *)
Definition new_payment (id : Z) (yookassa_payment_id : string) (user_id : Z)
    (amount : float) (tariff_id : Z) : Payment.t :=
  {| Payment.id := id; Payment.yookassa_payment_id := yookassa_payment_id;
     Payment.user_id := user_id; Payment.amount := amount; Payment.currency := "RUB";
     Payment.status := "pending"; Payment.tariff_id := tariff_id;
     Payment.paid_at := None |}.

(** [db.add(payment); db.commit()], [yookassa_payment_id] being unique. *)
Definition insert_payment (p : Payment.t) : H unit :=
  st ← lift store;
  if bool_decide (Exists (λ q, Payment.yookassa_payment_id q
                               = Payment.yookassa_payment_id p) (payments st))
  then lift rollback;; fail IntegrityError
  else
    lift (modify (λ st, {| users := users st; payments := payments st ++ [p];
                           tariffs := tariffs st; logs := logs st |}));;
    lift commit.

(** [log_action] for a message of this handler. *)
Definition log_note (level : Log.Level) (message : NoteMessage) (source : string)
    : H unit :=
  st ← lift store;
  (λ s, (Done (),
         {| world := world s; gateway := gateway s;
            notes := notes s ++ [{| after := List.length (logs st); level := level;
                                    message := message; source := source |}] |}));;
  lift commit.

Definition create_payment (settings : Settings) (keys : Keys) (tariff_id : Z)
    (telegram_id : string) : H Reply :=
  if negb (yookassa_configured settings)
  then fail (Exn (Py.HTTPException 500 "Yookassa not configured"))
  else
    tariff ← lift (Backend.query_tariff tariff_id);
    match tariff with
    | None => fail (Exn (Py.HTTPException 404 "Tariff not found"))
    | Some (_, tariff) =>
        st ← lift store;
        user ← match first_user_by_telegram telegram_id st with
                | Some (_, user) => mret user
                | None =>
                    insert_user (new_user_id keys) telegram_id
                      (String.append telegram_id "@vpn.local")
                end;
        payment_data ← yookassa_create_payment (Tariff.price tariff)
                         (String.append "VPN Subscription - " (Tariff.name tariff));
        insert_payment
          (new_payment (new_payment_id keys) (Yookassa.payment_id payment_data)
             (User.id user) (Tariff.price tariff) tariff_id);;
        log_note Log.INFO
          (CreatedPayment (Yookassa.payment_id payment_data) telegram_id) "PAYMENT";;
        mret {| payment_id := Yookassa.payment_id payment_data;
                confirmation_url := Yookassa.created_confirmation_url payment_data;
                amount := Yookassa.created_amount payment_data |}
    end.

End Handler.
End Checkout.

(** ** bot/main.py: the data behind the tariff buttons *)

Module Buttons.

(** [str(n)] for an [int]: the decimal digits, after a minus sign for a
    negative number. *)
Definition str (n : Z) : string := NilZero.string_of_int (Z.to_int n).

(** Line 87: [f"tariff_{tariff['id']}"]. *)
Definition tariff_data (id : Z) : string := String.append "tariff_" (str id).

(** What line 96 makes of the data of a pressed button. *)
Inductive Selection :=
| Selected (tariff_id : Z)
| IndexError
| ValueError.

(** Line 96: [int(callback_query.data.split("_")[1])]. *)
Definition selected_tariff (data : string) : Selection :=
  match Py.split "_"%char data !! 1%nat with
  | None => IndexError
  | Some piece =>
      match Py.int piece with
      | Some tariff_id => Selected tariff_id
      | None => ValueError
      end
  end.

End Buttons.

(** ** Concrete runtimes and panels for the scenarios *)

(** Arithmetic on whole amounts: doubles add, multiply and divide whole
    numbers below 2^53 exactly when the result is whole, which is all the
    scenarios below use.  The host's clock is UTC. *)
Definition whole_runtime : PyRuntime :=
  {| float := Z; float_add := Z.add; float_mul := Z.mul; float_truediv := Z.div;
     float_of_int := λ n, n; timestamp_ms := λ t, t / 1000 |}.


(** A panel that remembers its clients: adding a known client fails,
    updating an unknown one fails, and there is no inbound numbered 0 or
    below. *)
Definition panel_up : Xui.Panel :=
  {| Xui.PanelState := list (Z * string);
     Xui.make_request := λ call clients,
       match call with
       | Xui.AddClient i e _ _ =>
           if bool_decide (i ≤ 0) then (Xui.Fails "no such inbound", clients)
           else if bool_decide ((i, e) ∈ clients) then (Xui.Fails "duplicate", clients)
           else (Xui.Json "added", (i, e) :: clients)
       | Xui.UpdateClient i e _ =>
           if bool_decide (i ≤ 0) then (Xui.Fails "no such inbound", clients)
           else if bool_decide ((i, e) ∈ clients) then (Xui.Json "updated", clients)
           else (Xui.Fails "not found", clients)
       end |}.

(** ** Scenario data

    One tariff (299 for 30 days on inbounds 1 and 2), one user who never
    subscribed, one pending payment of that user for that tariff.  The
    clock starts at [T0] and advances one microsecond per reading. *)

Module Scenario.

#[local] Existing Instance whole_runtime.

Definition T0 : Z := 1700000000000000.

Definition cfg : Backend.Config :=
  {| Backend.XUI_URL := Some "http://panel"; Backend.XUI_TOKEN := Some "token" |}.

Definition tariff : @Tariff.t whole_runtime :=
  {| Tariff.id := 1; Tariff.name := "Month"; Tariff.price := 299;
     Tariff.duration_days := 30; Tariff.inbound_ids := "1, 2"; Tariff.active := true |}.

Definition user : @User.t whole_runtime :=
  {| User.id := 7; User.telegram_id := "42"; User.email := "42@vpn.local";
     User.subscription_active := false; User.subscription_end_date := None;
     User.total_purchases := 0; User.renewal_count := 0; User.config_links := None |}.

Definition payment : @Payment.t whole_runtime :=
  {| Payment.id := 1; Payment.yookassa_payment_id := "pay-1"; Payment.user_id := 7;
     Payment.amount := 299; Payment.currency := "RUB"; Payment.status := "pending";
     Payment.tariff_id := 1; Payment.paid_at := None |}.

(** A second pending payment of the same user, and one whose user row is
    gone. *)
Definition payment2 : @Payment.t whole_runtime :=
  {| Payment.id := 2; Payment.yookassa_payment_id := "pay-2"; Payment.user_id := 7;
     Payment.amount := 299; Payment.currency := "RUB"; Payment.status := "pending";
     Payment.tariff_id := 1; Payment.paid_at := None |}.

Definition orphan : @Payment.t whole_runtime :=
  {| Payment.id := 3; Payment.yookassa_payment_id := "pay-3"; Payment.user_id := 8;
     Payment.amount := 299; Payment.currency := "RUB"; Payment.status := "pending";
     Payment.tariff_id := 1; Payment.paid_at := None |}.

Definition ledger : @Store whole_runtime :=
  {| users := [user]; payments := [payment; payment2; orphan]; tariffs := [tariff];
     logs := [] |}.

(** The world at time [start] with a clean session. *)
Definition world (P : Xui.Panel) (ps : @Xui.PanelState P) (start : Z)
    : @World whole_runtime P :=
  {| db := {| live := ledger; durable := ledger |}; panel := ps;
     clock := λ k, start + Z.of_nat k; ticks := 0 |}.


(** One delivery of a notification. *)
Definition deliver (P : Xui.Panel) (c : Backend.Config) (payment_id status : string)
    (w : @World whole_runtime P) : Result Backend.Reply * @World whole_runtime P :=
  Backend.yookassa_webhook c (Backend.notification payment_id status) w.

(** What the bot sees: one listed tariff of 300 for 30 days, and a chat
    that was just asked for a day count. *)
Definition listed_tariff : @Bot.TariffJson whole_runtime :=
  {| Bot.price := 300; Bot.duration_days := 30 |}.

Definition asked : @Bot.Chat whole_runtime :=
  Bot.extend_subscription {| Bot.state := None; Bot.sent := [] |}.

(** The starting world of the scenarios, with the remembering panel. *)
Definition start : @World whole_runtime panel_up := world panel_up [] T0.

(** The first purchase is paid: [succeeded] arrives for [pay-1]. *)
Definition first_purchase : @World whole_runtime panel_up :=
  (deliver panel_up cfg "pay-1" "succeeded" start).2.

(** The gateway delivers the same notification once more. *)
Definition redelivered : @World whole_runtime panel_up :=
  (deliver panel_up cfg "pay-1" "succeeded" first_purchase).2.

(** A [canceled] notification arrives for the payment already paid. *)
Definition canceled_afterwards : @World whole_runtime panel_up :=
  (deliver panel_up cfg "pay-1" "canceled" first_purchase).2.


End Scenario.

(** ** Vocabulary of the statements *)

(** The world with the panel in state [ps]. *)
Definition with_panel `{PyRuntime} `{Xui.Panel} (ps : Xui.PanelState) (w : World) : World :=
  {| db := db w; panel := ps; clock := clock w; ticks := ticks w |}.

(** The panel refuses [call] in state [ps]. *)
Definition refuses `{Xui.Panel} (call : Xui.PanelCall) (ps : Xui.PanelState) : Prop :=
  ∃ text, (Xui.make_request call ps).1 = Xui.Fails text.

(** For each of the inbounds [ids] the panel refuses, in every state, both
    the add and the update for [email]. *)
Definition refused_for `{Xui.Panel} (email : string) (ids : list Z) : Prop :=
  ∀ i exp ps, i ∈ ids →
    refuses (Xui.AddClient i email exp "auto") ps
    ∧ refuses (Xui.UpdateClient i email exp) ps.

(** The entry the loop body produces for inbound [i] in some world. *)
Definition produced `{PyRuntime} `{Xui.Panel} (email : string) (exp : Z) (i : Z)
    (e : Xui.Entry) : Prop :=
  Xui.inbound_id e = i
  ∧ ∃ w1 w2, XUIClient.provision_one i email exp w1 = (Return e, w2).

(** What one run changed: the user and payment tables by [fu] and [fp],
    the tariffs not at all, the log by [new_logs] appended, the panel left
    in [ps], and everything committed. *)
Definition effect `{PyRuntime} `{Xui.Panel} (w w' : World)
    (fu : list User.t → list User.t) (fp : list Payment.t → list Payment.t)
    (new_logs : list Log.t) (ps : Xui.PanelState) : Prop :=
  users (live (db w')) = fu (users (live (db w)))
  ∧ payments (live (db w')) = fp (payments (live (db w)))
  ∧ tariffs (live (db w')) = tariffs (live (db w))
  ∧ logs (live (db w')) = logs (live (db w)) ++ new_logs
  ∧ durable (db w') = live (db w')
  ∧ panel w' = ps
  ∧ clock w' = clock w.

(** The end date lines 349-352 compute, [now k] being the k-th clock
    reading they take. *)
Definition new_end (current : option Z) (days : Z) (now : nat → Z) : Z :=
  match current with
  | Some end_date =>
      if bool_decide (end_date > now 0%nat) then end_date + timedelta days
      else now 1%nat + timedelta days
  | None => now 0%nat + timedelta days
  end.

(** The four assignments of lines 350-356 on a user row. *)
Definition renewed `{PyRuntime} (end_date : Z) (price : float) (u : User.t) : User.t :=
  Backend.add_renewal_count 1 (Backend.add_total_purchases price
    (Backend.set_subscription_active true (Backend.set_subscription_end_date end_date u))).


(** Lines 339 and 341 on a payment row. *)
Definition paid `{PyRuntime} (now : Z) (p : Payment.t) : Payment.t :=
  Backend.set_paid_at now (Backend.set_status "succeeded" p).

(** [config_links] after an activation: set when provisioning ran. *)
Definition relinked `{PyRuntime} (links : option Xui.Outcome) (u : User.t) : User.t :=
  match links with
  | Some outcome => Backend.set_config_links outcome u
  | None => u
  end.

(** The exception the [try] block raises before it reads the ledger, if
    the body makes it raise one. *)
Definition rejection (request : Backend.Body) : option Py.Exn :=
  match request with
  | Backend.Malformed => Some Py.JSONDecodeError
  | Backend.NotADict => Some Py.AttributeError
  | Backend.Dict (Some Backend.ObjOther) => Some Py.AttributeError
  | Backend.Dict None => Some (Py.HTTPException 400 "Invalid webhook data")
  | Backend.Dict (Some (Backend.ObjDict payment_id status)) =>
      if Py.truthy payment_id && Py.truthy status then None
      else Some (Py.HTTPException 400 "Invalid webhook data")
  end.

(** What the [except] branch raises. *)
Definition server_error : Py.Exn := Py.HTTPException 500 "Webhook processing failed".

(** The answer to an input that fails validation: the error message, and
    the chat back in the idle state. *)
Definition rejected `{PyRuntime} (chat : Bot.Chat) : Result unit * Bot.Chat :=
  (Return (), {| Bot.state := None; Bot.sent := Bot.sent chat ++ [Bot.InvalidDays] |}).

(** The text parses to a day count the dialogue accepts. *)
Definition in_range (text : string) : Prop :=
  ∃ days, Py.int text = Some days ∧ 1 ≤ days ≤ 365.

(** ** Tactics: running a handler on an opened world *)

Ltac open_world w :=
  let us := fresh "us" in let pays := fresh "pays" in let ts := fresh "ts" in
  let ls := fresh "ls" in let du := fresh "du" in let pn := fresh "pn" in
  let ck := fresh "ck" in let tk := fresh "tk" in
  destruct w as [[[us pays ts ls] du] pn ck tk];
  cbv [Backend.first_payment Backend.first_user Backend.first_tariff
       db live durable users payments tariffs logs panel clock ticks reading Nat.add] in *.

Ltac run :=
  cbv [Backend.yookassa_webhook Backend.webhook_try Backend.notification
       Backend.notification_fields Backend.apply_status Backend.activate
       Backend.extend_user_subscription Backend.extended_end_date
       Backend.parse_inbound_ids Backend.query_payment Backend.query_user
       Backend.query_tariff Backend.update_payment Backend.update_user
       Backend.log_action Backend.first_payment Backend.first_user Backend.first_tariff
       mbind M_bind mret M_ret raise try_except utcnow store modify commit
       with_db with_live with_panel default from_option id Py.truthy negb orb andb
       db live durable users payments tariffs logs panel clock ticks reading Nat.add
       effect new_end server_error].

Ltac succeeded :=
  change (Py.str_truthy "succeeded") with true;
  rewrite ?(bool_decide_true ("succeeded"%string = "succeeded"%string)) by done.

Ltac settle :=
  split; [reflexivity|]; run;
  rewrite ?list_alter_alter_eq, <- ?app_assoc; by repeat split.

(** ** Observing the requests a client sends *)



(** ** Key columns and repeated deliveries *)

(** Two versions of a payment row that differ at most in [status] and
    [paid_at]. *)
Definition same_payment_keys `{PyRuntime} (p p' : Payment.t) : Prop :=
  Payment.id p' = Payment.id p
  ∧ Payment.yookassa_payment_id p' = Payment.yookassa_payment_id p
  ∧ Payment.user_id p' = Payment.user_id p
  ∧ Payment.tariff_id p' = Payment.tariff_id p
  ∧ Payment.amount p' = Payment.amount p
  ∧ Payment.currency p' = Payment.currency p.

(** Two versions of a user row with the same identity columns. *)
Definition same_user_keys `{PyRuntime} (u u' : User.t) : Prop :=
  User.id u' = User.id u
  ∧ User.telegram_id u' = User.telegram_id u
  ∧ User.email u' = User.email u.


(** ** More scenario data *)

Module Cases.

#[local] Existing Instance whole_runtime.







End Cases.

(** ** Joining parsed inbound lists *)

(** Both lists parsed, one after the other; nothing if either failed. *)
Definition both_parsed (a b : option (list Z)) : option (list Z) :=
  match a, b with
  | Some x, Some y => Some (x ++ y)
  | _, _ => None
  end.

(** ** The purchase handler: what a run changed *)

(** The service with the gateway in state [g]. *)
Definition with_gateway `{PyRuntime} `{Xui.Panel} `{!Yookassa.Gateway}
    (g : Yookassa.GatewayState) (s : Checkout.Service) : Checkout.Service :=
  {| Checkout.world := Checkout.world s; Checkout.gateway := g;
     Checkout.notes := Checkout.notes s |}.

(** The tables as the session of [s] sees them. *)
Definition seen `{PyRuntime} `{Xui.Panel} `{!Yookassa.Gateway} (s : Checkout.Service)
    : Store :=
  live (db (Checkout.world s)).

(** Nothing is pending in the session of [s]: a request starts so. *)
Definition clean `{PyRuntime} `{Xui.Panel} `{!Yookassa.Gateway} (s : Checkout.Service)
    : Prop :=
  durable (db (Checkout.world s)) = live (db (Checkout.world s)).

(** Tariffs, webhook log, panel and clock are the same in [s] and [s']. *)
Definition same_surroundings `{PyRuntime} `{Xui.Panel} `{!Yookassa.Gateway}
    (s s' : Checkout.Service) : Prop :=
  tariffs (seen s') = tariffs (seen s)
  ∧ logs (seen s') = logs (seen s)
  ∧ panel (Checkout.world s') = panel (Checkout.world s)
  ∧ clock (Checkout.world s') = clock (Checkout.world s)
  ∧ ticks (Checkout.world s') = ticks (Checkout.world s).

(** What one run of the purchase handler changed: the user and payment
    tables by [fu] and [fp], the notes by [new_notes] appended, the
    gateway left in [g], the rest not at all, and everything committed. *)
Definition purchase_effect `{PyRuntime} `{Xui.Panel} `{!Yookassa.Gateway}
    (s s' : Checkout.Service)
    (fu : list User.t → list User.t) (fp : list Payment.t → list Payment.t)
    (new_notes : list Checkout.Note) (g : Yookassa.GatewayState) : Prop :=
  users (seen s') = fu (users (seen s))
  ∧ payments (seen s') = fp (payments (seen s))
  ∧ same_surroundings s s'
  ∧ clean s'
  ∧ Checkout.gateway s' = g
  ∧ Checkout.notes s' = Checkout.notes s ++ new_notes.

(** The request the handler sends to the gateway for tariff [t]. *)
Definition order `{PyRuntime} (t : Tariff.t) : Yookassa.PaymentData :=
  Checkout.payment_request (Tariff.price t)
    (String.append "VPN Subscription - " (Tariff.name t)).

(** The e-mail address the handler gives a new customer. *)
Definition local_email (telegram_id : string) : string :=
  String.append telegram_id "@vpn.local".

(** The note of a created payment, written when the webhook log held
    [n] rows. *)
Definition created_note (n : nat) (payment_id telegram_id : string) : Checkout.Note :=
  {| Checkout.after := n; Checkout.level := Log.INFO;
     Checkout.message := Checkout.CreatedPayment payment_id telegram_id;
     Checkout.source := "PAYMENT" |}.

(** Every stored e-mail address is the one the handler derives from the
    row's telegram id. *)
Definition derived_emails `{PyRuntime} (st : Store) : Prop :=
  Forall (λ u, User.email u = local_email (User.telegram_id u)) (users st).

Ltac open_service s :=
  let w := fresh "w" in let g := fresh "g" in let ns := fresh "ns" in
  destruct s as [w g ns];
  cbv [seen clean same_surroundings Checkout.first_user_by_telegram
       Checkout.world Checkout.gateway Checkout.notes] in *;
  open_world w.

Ltac runh :=
  cbv [Checkout.create_payment Checkout.insert_user Checkout.insert_payment
       Checkout.log_note Checkout.yookassa_create_payment Checkout.rollback
       Checkout.first_user_by_telegram
       Checkout.lift Checkout.fail Checkout.H_bind Checkout.H_ret
       Checkout.world Checkout.gateway Checkout.notes
       Backend.query_tariff Backend.first_tariff Backend.first_payment Backend.first_user
       mbind M_bind mret M_ret store modify commit with_db with_live negb
       db live durable users payments tariffs logs panel clock ticks reading Nat.add
       purchase_effect same_surroundings clean seen with_gateway order local_email
       created_note fst snd].

(** ** Rewriting the [active] flags of the tariffs *)

Definition set_active `{PyRuntime} (b : bool) (t : Tariff.t) : Tariff.t :=
  {| Tariff.id := Tariff.id t; Tariff.name := Tariff.name t;
     Tariff.price := Tariff.price t; Tariff.duration_days := Tariff.duration_days t;
     Tariff.inbound_ids := Tariff.inbound_ids t; Tariff.active := b |}.

(** The tables with the flag of every tariff [t] set to [f t]. *)
Definition reflag_store `{PyRuntime} (f : Tariff.t → bool) (st : Store) : Store :=
  {| users := users st; payments := payments st;
     tariffs := (λ t, set_active (f t) t) <$> tariffs st; logs := logs st |}.

(** The same for a service: in its session and in what is committed. *)
Definition reflag `{PyRuntime} `{Xui.Panel} `{!Yookassa.Gateway} (f : Tariff.t → bool)
    (s : Checkout.Service) : Checkout.Service :=
  {| Checkout.world :=
       {| db := {| live := reflag_store f (live (db (Checkout.world s)));
                   durable := reflag_store f (durable (db (Checkout.world s))) |};
          panel := panel (Checkout.world s); clock := clock (Checkout.world s);
          ticks := ticks (Checkout.world s) |};
     Checkout.gateway := Checkout.gateway s; Checkout.notes := Checkout.notes s |}.

(** ** A gateway and a shop for the scenarios *)

Module Shop.

#[local] Existing Instance whole_runtime.

(** A gateway that hands out the payment identifiers of its state one
    by one, and refuses when none is left. *)
Definition gateway_up : @Yookassa.Gateway whole_runtime :=
  {| Yookassa.Decimal := Z; Yookassa.GatewayState := list string;
     Yookassa.create := λ data ids,
       match ids with
       | i :: rest =>
           (Yookassa.Accepted
              {| Yookassa.id := i; Yookassa.status := "pending";
                 Yookassa.amount_value := Yookassa.amount data;
                 Yookassa.amount_currency := Yookassa.currency data;
                 Yookassa.confirmation_url := String.append "https://pay/" i;
                 Yookassa.created_at := "2023-11-14T22:13:20Z" |}, rest)
       | [] => (Yookassa.Refused "unavailable", [])
       end |}.

Definition settings : Checkout.Settings :=
  {| Checkout.YOOKASSA_SHOP_ID := Some "shop";
     Checkout.YOOKASSA_SECRET_KEY := Some "secret" |}.

Definition keys : Checkout.Keys :=
  {| Checkout.new_user_id := 8; Checkout.new_payment_id := 4 |}.

(** The starting world of the scenarios behind the purchase handler,
    the gateway holding the identifiers [ids]. *)
Definition open_with (ids : @Yookassa.GatewayState whole_runtime gateway_up)
    : @Checkout.Service whole_runtime panel_up gateway_up :=
  {| Checkout.world := Scenario.start; Checkout.gateway := ids; Checkout.notes := [] |}.


End Shop.

(** ** Decimal digits as characters *)

(** The characters [str] writes for the digits [d]. *)
Definition digit_chars (d : Decimal.uint) : list ascii :=
  list_ascii_of_string (NilEmpty.string_of_uint d).

(** * Properties *)

(** ** Python builtins on examples *)

Example int_365 : Py.int "365" = Some 365.
Proof. reflexivity. Qed.

Example int_blank_signed : Py.int "  +1_0 " = Some 10 ∧ Py.int "-7" = Some (-7).
Proof. split; reflexivity. Qed.

Example int_rejects : Py.int "abc" = None ∧ Py.int "" = None ∧ Py.int "1__0" = None
                      ∧ Py.int "3 5" = None ∧ Py.int "+" = None.
Proof. repeat split; reflexivity. Qed.

Example split_inbounds : Py.split ","%char "1, 2,,3" = ["1"; " 2"; ""; "3"]%string.
Proof. reflexivity. Qed.

(** ** Running computations *)

Section Running.
Context `{RT : PyRuntime} `{PN : Xui.Panel}.

Lemma bind_return {A B} (m : M A) (f : A → M B) w a w' :
  m w = (Return a, w') → (m ≫= f) w = f a w'.
Proof. intros H. unfold mbind, M_bind. now rewrite H. Qed.

Lemma str_truthy_true s : s ≠ ""%string → Py.str_truthy s = true.
Proof. by destruct s. Qed.

End Running.

(** ** The provisioning client *)

Section Provisioning.
Context `{RT : PyRuntime} `{PN : Xui.Panel}.

(** One pass of the loop body never raises, touches nothing but the
    panel, and tags its entry by what the panel answered. *)
Lemma provision_one_returns i email exp w :
  ∃ e ps,
    XUIClient.provision_one i email exp w = (Return e, with_panel ps w)
    ∧ Xui.inbound_id e = i
    ∧ (Xui.status e = Xui.created ↔ ¬ refuses (Xui.AddClient i email exp "auto") (panel w))
    ∧ (Xui.status e = Xui.error ↔
         refuses (Xui.AddClient i email exp "auto") (panel w)
         ∧ refuses (Xui.UpdateClient i email exp)
             (Xui.make_request (Xui.AddClient i email exp "auto") (panel w)).2).
Proof.
  unfold XUIClient.provision_one, try_except, XUIClient.add_client,
    XUIClient.update_client, XUIClient._make_request, mbind, M_bind, mret, M_ret, refuses.
  destruct (Xui.make_request (Xui.AddClient i email exp "auto") (panel w))
    as [[b|t] ps]; cbn.
  - exists (Xui.Created i b), ps. split_and!; try done.
    + split; [intros _ [? ?]; done | done].
    + split; [done | intros [[? ?] _]; done].
  - destruct (Xui.make_request (Xui.UpdateClient i email exp) ps) as [[b'|t'] ps']; cbn.
    + exists (Xui.Updated i b'), ps'. split_and!; try done.
      * split; [done | intros []; by exists t].
      * split; [done | intros [_ [? ?]]; done].
    + exists (Xui.Error i (Py.ClientError t')), ps'. split_and!; try done.
      * split; [done | intros []; by exists t].
      * split; [intros _; split; [by exists t | by exists t'] | done].
Qed.

Lemma provision_loop_returns ids email exp : ∀ results w,
  ∃ entries ps,
    XUIClient.provision_loop ids email exp results w
      = (Return (results ++ entries), with_panel ps w)
    ∧ Forall2 (produced email exp) ids entries
    ∧ (refused_for email ids → Forall (λ e, Xui.status e = Xui.error) entries).
Proof.
  induction ids as [|i rest IH]; intros results w; cbn [XUIClient.provision_loop].
  - exists [], (panel w). rewrite app_nil_r. destruct w; repeat split; constructor.
  - destruct (provision_one_returns i email exp w) as (e & ps & He & Hi & _ & Herr).
    rewrite (bind_return _ _ _ _ _ He).
    destruct (IH (results ++ [e]) (with_panel ps w)) as (entries & ps' & Hl & Hp & Hd).
    exists (e :: entries), ps'. rewrite Hl, <- app_assoc. repeat split.
    + constructor; [|done]. split; [done|]. by exists w, (with_panel ps w).
    + intros Hdown. constructor.
      * apply Herr. split; apply Hdown; by left.
      * apply Hd. intros i' exp' ps'' Hin. apply Hdown. by right.
Qed.

Lemma create_or_update_client_returns ids email days w :
  ∃ entries ps,
    XUIClient.create_or_update_client ids email days w
      = (Return {| Xui.email := email;
                   Xui.expiry_time := timestamp_ms (reading w 0 + timedelta days);
                   Xui.results := entries |},
         {| db := db w; panel := ps; clock := clock w; ticks := S (ticks w) |})
    ∧ Forall2 (produced email (timestamp_ms (reading w 0 + timedelta days))) ids entries
    ∧ (refused_for email ids → Forall (λ e, Xui.status e = Xui.error) entries).
Proof.
  unfold XUIClient.create_or_update_client, XUIClient.calculate_expiry_timestamp.
  cbv [mbind M_bind utcnow mret M_ret].
  match goal with |- context [XUIClient.provision_loop ids email ?x [] ?w'] =>
    destruct (provision_loop_returns ids email x [] w') as (entries & ps & Hl & Hp & Hd) end.
  rewrite Hl. by exists entries, ps.
Qed.


End Provisioning.

(** ** The webhook, path by path *)

Section Paths.
Context `{RT : PyRuntime} `{PN : Xui.Panel}.
Implicit Types (cfg : Backend.Config) (w : World) (pid st : string).

Lemma rejection_none request :
  rejection request = None →
  ∃ pid st, request = Backend.notification pid st ∧ pid ≠ ""%string ∧ st ≠ ""%string.
Proof.
  destruct request as [| |[[[[|c pid]|] [[|c' st]|]|]|]]; cbn; try done.
  intros _. by exists (String c pid), (String c' st).
Qed.

(** A body the [try] block rejects: answer 500, one ERROR entry. *)
Lemma webhook_rejects cfg request e w :
  rejection request = Some e →
  ∃ w', Backend.yookassa_webhook cfg request w = (Raise server_error, w')
        ∧ effect w w' id id
            [Log.mk Log.ERROR (Log.WebhookFailed e) "WEBHOOK"] (panel w).
Proof.
  intros Hr. open_world w. eexists.
  destruct request as [| |[[[[|c pid]|] [[|c' st]|]|]|]]; cbn in Hr; simplify_eq;
    run; cbn [Py.str_truthy]; run; settle.
Qed.

(** No payment with that identifier: answer ok, one WARNING entry. *)
Lemma webhook_unknown cfg pid st w :
  pid ≠ ""%string → st ≠ ""%string →
  Backend.first_payment pid (live (db w)) = None →
  ∃ w', Backend.yookassa_webhook cfg (Backend.notification pid st) w
          = (Return Backend.ok, w')
        ∧ effect w w' id id
            [Log.mk Log.WARNING (Log.UnknownPayment pid) "WEBHOOK"] (panel w).
Proof.
  intros Hp Hs Hf. apply str_truthy_true in Hp, Hs.
  open_world w. eexists. run. rewrite Hp, Hs. run. rewrite Hf. run. settle.
Qed.

(** A status other than succeeded: only the status column changes. *)
Lemma webhook_other cfg pid st w i p :
  pid ≠ ""%string → st ≠ ""%string → st ≠ "succeeded"%string →
  Backend.first_payment pid (live (db w)) = Some (i, p) →
  ∃ w', Backend.yookassa_webhook cfg (Backend.notification pid st) w
          = (Return Backend.ok, w')
        ∧ effect w w' id (alter (Backend.set_status st) i)
            [Log.mk Log.INFO (Log.StatusChanged pid (Payment.status p) st) "WEBHOOK"]
            (panel w).
Proof.
  intros Hp Hs Hn Hf. apply str_truthy_true in Hp, Hs.
  open_world w. eexists. run. rewrite Hp, Hs. run. rewrite Hf. run.
  rewrite bool_decide_false by done. run. settle.
Qed.

(** Succeeded, but the user row or the tariff row is not there. *)
Lemma webhook_missing cfg pid w i p :
  pid ≠ ""%string →
  Backend.first_payment pid (live (db w)) = Some (i, p) →
  Backend.first_user (Payment.user_id p) (live (db w)) = None
    ∨ Backend.first_tariff (Payment.tariff_id p) (live (db w)) = None →
  ∃ w', Backend.yookassa_webhook cfg (Backend.notification pid "succeeded") w
          = (Return Backend.ok, w')
        ∧ effect w w' id (alter (paid (reading w 0)) i)
            [Log.mk Log.INFO (Log.StatusChanged pid (Payment.status p) "succeeded") "WEBHOOK"]
            (panel w).
Proof.
  intros Hp Hf Hm. apply str_truthy_true in Hp.
  open_world w. eexists. run. rewrite Hp. succeeded. run. rewrite Hf. run.
  succeeded. run.
  destruct Hm as [Hm|Hm]; rewrite Hm.
  - run. settle.
  - destruct (list_find _ us) as [[j u]|]; run; settle.
Qed.

(** Succeeded with user and tariff, no panel configured. *)
Lemma webhook_activates_unconfigured cfg pid w i p j u k t :
  pid ≠ ""%string →
  Backend.first_payment pid (live (db w)) = Some (i, p) →
  Backend.first_user (Payment.user_id p) (live (db w)) = Some (j, u) →
  Backend.first_tariff (Payment.tariff_id p) (live (db w)) = Some (k, t) →
  Backend.xui_configured cfg = false →
  ∃ w', Backend.yookassa_webhook cfg (Backend.notification pid "succeeded") w
          = (Return Backend.ok, w')
        ∧ effect w w'
            (alter (renewed (new_end (User.subscription_end_date u)
                               (Tariff.duration_days t) (λ n, reading w (S n)))
                      (Tariff.price t)) j)
            (alter (paid (reading w 0)) i)
            [Log.mk Log.INFO (Log.Activated (User.telegram_id u) pid) "WEBHOOK";
             Log.mk Log.INFO (Log.StatusChanged pid (Payment.status p) "succeeded") "WEBHOOK"]
            (panel w).
Proof.
  intros Hp Hf Hu Ht Hx. apply str_truthy_true in Hp.
  open_world w. run. rewrite Hp. succeeded. run. rewrite Hf. run.
  succeeded. run. rewrite Hu, Ht, Hx.
  destruct (User.subscription_end_date u) as [e|];
    [destruct (bool_decide (e > _)) eqn:Estack|]; run; rewrite ?Estack; eexists; settle.
Qed.

(** Succeeded with user and tariff, panel configured, but the tariff's
    inbound list does not parse: [ValueError] after the user row was
    changed, and the [except] branch commits what is pending. *)
Lemma webhook_activation_fails cfg pid w i p j u k t :
  pid ≠ ""%string →
  Backend.first_payment pid (live (db w)) = Some (i, p) →
  Backend.first_user (Payment.user_id p) (live (db w)) = Some (j, u) →
  Backend.first_tariff (Payment.tariff_id p) (live (db w)) = Some (k, t) →
  Backend.xui_configured cfg = true →
  Backend.inbound_id_list (Tariff.inbound_ids t) = None →
  ∃ w', Backend.yookassa_webhook cfg (Backend.notification pid "succeeded") w
          = (Raise server_error, w')
        ∧ effect w w'
            (alter (renewed (new_end (User.subscription_end_date u)
                               (Tariff.duration_days t) (λ n, reading w (S n)))
                      (Tariff.price t)) j)
            (alter (paid (reading w 0)) i)
            [Log.mk Log.ERROR (Log.WebhookFailed Py.ValueError) "WEBHOOK"]
            (panel w).
Proof.
  intros Hp Hf Hu Ht Hx Hids. apply str_truthy_true in Hp.
  open_world w. run. rewrite Hp. succeeded. run. rewrite Hf. run.
  succeeded. run. rewrite Hu, Ht, Hx, Hids.
  destruct (User.subscription_end_date u) as [e|];
    [destruct (bool_decide (e > _)) eqn:Estack|]; run; rewrite ?Estack; eexists; settle.
Qed.

(** Succeeded with user and tariff, panel configured, inbound list
    [ids]: one entry per inbound is stored on the user, whatever the
    panel answered. *)
Lemma webhook_activates_provisioned cfg pid w i p j u k t ids :
  pid ≠ ""%string →
  Backend.first_payment pid (live (db w)) = Some (i, p) →
  Backend.first_user (Payment.user_id p) (live (db w)) = Some (j, u) →
  Backend.first_tariff (Payment.tariff_id p) (live (db w)) = Some (k, t) →
  Backend.xui_configured cfg = true →
  Backend.inbound_id_list (Tariff.inbound_ids t) = Some ids →
  ∃ w' exp entries,
    Backend.yookassa_webhook cfg (Backend.notification pid "succeeded") w
      = (Return Backend.ok, w')
    ∧ Forall2 (produced (User.email u) exp) ids entries
    ∧ (refused_for (User.email u) ids → Forall (λ e, Xui.status e = Xui.error) entries)
    ∧ effect w w'
        (alter (Backend.set_config_links
                  {| Xui.email := User.email u; Xui.expiry_time := exp;
                     Xui.results := entries |}
                ∘ renewed (new_end (User.subscription_end_date u)
                             (Tariff.duration_days t) (λ n, reading w (S n)))
                    (Tariff.price t)) j)
        (alter (paid (reading w 0)) i)
        [Log.mk Log.INFO (Log.Activated (User.telegram_id u) pid) "WEBHOOK";
         Log.mk Log.INFO (Log.StatusChanged pid (Payment.status p) "succeeded") "WEBHOOK"]
        (panel w').
Proof.
  intros Hp Hf Hu Ht Hx Hids. apply str_truthy_true in Hp.
  open_world w. run. rewrite Hp. succeeded. run. rewrite Hf. run.
  succeeded. run. rewrite Hu, Ht, Hx, Hids.
  destruct (User.subscription_end_date u) as [e|];
    [destruct (bool_decide (e > _)) eqn:Estack|]; run; rewrite ?Estack;
    match goal with |- context [XUIClient.create_or_update_client ?a ?b ?c ?w0] =>
      destruct (create_or_update_client_returns a b c w0)
        as (entries & ps & Hrun & Hprod & Hdown);
      cbv [db panel clock ticks reading Nat.add] in Hrun, Hprod; rewrite Hrun
    end;
    run; eexists _, _, entries; (split; [reflexivity|]);
    (split; [exact Hprod|]); (split; [exact Hdown|]);
    run; rewrite ?list_alter_alter_eq, <- ?app_assoc; by repeat split.
Qed.



End Paths.

(** ** Lookups after an update *)

Section Lookups.
Context `{RT : PyRuntime}.

Lemma first_payment_lookup pid (st : Store) i p :
  Backend.first_payment pid st = Some (i, p) →
  payments st !! i = Some p ∧ Payment.yookassa_payment_id p = pid.
Proof. unfold Backend.first_payment. intros H. apply list_find_Some in H. tauto. Qed.


Lemma lookup_alter_Some {A} (f : A → A) (l : list A) i x :
  l !! i = Some x → alter f i l !! i = Some (f x).
Proof. intros H. by rewrite list_lookup_alter_eq, H. Qed.

End Lookups.

(** ** Claims about the provisioning client *)


(** A mixed run on the remembering panel: inbound 1 is new, inbound 2
    already has the client, inbound 0 does not exist. *)
Example create_or_update_client_mixed :
  (@XUIClient.create_or_update_client whole_runtime panel_up [1; 2; 0] "42@vpn.local" 30
     (Scenario.world panel_up [(2, "42@vpn.local"%string)] Scenario.T0)).1
  = Return {| Xui.email := "42@vpn.local";
              Xui.expiry_time := (Scenario.T0 + timedelta 30) / 1000;
              Xui.results := [Xui.Created 1 "added"; Xui.Updated 2 "updated";
                              Xui.Error 0 (Py.ClientError "no such inbound")] |}.
Proof. vm_compute. reflexivity. Qed.

(** ** Claims about the webhook *)

Section Acknowledgment.
Context `{RT : PyRuntime} `{PN : Xui.Panel}.



End Acknowledgment.




(** The empty JSON object, as the gateway could send it. *)
Example empty_notification_answers_500 :
  Backend.respond
    (Backend.yookassa_webhook Scenario.cfg (Backend.Dict None) Scenario.start).1
  = {| Backend.status_code := 500;
       Backend.content := [("detail", "Webhook processing failed")]%string |}.
Proof. vm_compute. reflexivity. Qed.

(** ** The succeeded path as a whole *)

Section Succeeded.
Context `{RT : PyRuntime} `{PN : Xui.Panel}.
Implicit Types (cfg : Backend.Config) (w : World) (pid st : string).

(** Whatever the configuration and the panel do, a succeeded delivery
    that finds payment, user and tariff renews the user row.  It ends
    either acknowledged with two log entries, or, when the inbound list
    does not parse, in a 500 with one. *)
Lemma webhook_activation cfg pid w i p j u k t :
  pid ≠ ""%string →
  Backend.first_payment pid (live (db w)) = Some (i, p) →
  Backend.first_user (Payment.user_id p) (live (db w)) = Some (j, u) →
  Backend.first_tariff (Payment.tariff_id p) (live (db w)) = Some (k, t) →
  ∃ r w' links new_logs,
    Backend.yookassa_webhook cfg (Backend.notification pid "succeeded") w = (r, w')
    ∧ effect w w'
        (alter (relinked links
                ∘ renewed (new_end (User.subscription_end_date u)
                             (Tariff.duration_days t) (λ n, reading w (S n)))
                    (Tariff.price t)) j)
        (alter (paid (reading w 0)) i) new_logs (panel w')
    ∧ ((r = Return Backend.ok
        ∧ new_logs
          = [Log.mk Log.INFO (Log.Activated (User.telegram_id u) pid) "WEBHOOK";
             Log.mk Log.INFO (Log.StatusChanged pid (Payment.status p) "succeeded")
               "WEBHOOK"])
       ∨ (r = Raise server_error
          ∧ new_logs = [Log.mk Log.ERROR (Log.WebhookFailed Py.ValueError) "WEBHOOK"]
          ∧ Backend.xui_configured cfg = true
          ∧ Backend.inbound_id_list (Tariff.inbound_ids t) = None)).
Proof.
  intros Hp Hf Hu Ht.
  destruct (Backend.xui_configured cfg) eqn:Hx;
    [destruct (Backend.inbound_id_list (Tariff.inbound_ids t)) as [ids|] eqn:Hids|].
  - destruct (webhook_activates_provisioned cfg pid w i p j u k t ids Hp Hf Hu Ht Hx Hids)
      as (w' & exp & entries & Hrun & _ & _ & He).
    eexists _, w', (Some _), _. split; [exact Hrun|]. split; [exact He|]. by left.
  - destruct (webhook_activation_fails cfg pid w i p j u k t Hp Hf Hu Ht Hx Hids)
      as (w' & Hrun & He).
    eexists (Raise server_error), w', None, _. split; [exact Hrun|].
    assert (panel w' = panel w) as Hpn by apply He.
    rewrite Hpn. split; [exact He|by right].
  - destruct (webhook_activates_unconfigured cfg pid w i p j u k t Hp Hf Hu Ht Hx)
      as (w' & Hrun & He).
    eexists (Return Backend.ok), w', None, _. split; [exact Hrun|].
    assert (panel w' = panel w) as Hpn by apply He.
    rewrite Hpn. split; [exact He|by left].
Qed.

(** Every succeeded delivery for a stored payment marks that payment
    paid at the first clock reading, whatever else happens. *)
Lemma webhook_succeeded cfg pid w i p :
  pid ≠ ""%string →
  Backend.first_payment pid (live (db w)) = Some (i, p) →
  ∃ r w' fu new_logs,
    Backend.yookassa_webhook cfg (Backend.notification pid "succeeded") w = (r, w')
    ∧ effect w w' fu (alter (paid (reading w 0)) i) new_logs (panel w')
    ∧ ((∃ entry, new_logs = [entry])
       ∨ (∃ telegram_id,
            new_logs
            = [Log.mk Log.INFO (Log.Activated telegram_id pid) "WEBHOOK";
               Log.mk Log.INFO (Log.StatusChanged pid (Payment.status p) "succeeded")
                 "WEBHOOK"])).
Proof.
  intros Hp Hf.
  destruct (Backend.first_user (Payment.user_id p) (live (db w))) as [[j u]|] eqn:Hu;
    [destruct (Backend.first_tariff (Payment.tariff_id p) (live (db w)))
       as [[k t]|] eqn:Ht|].
  - destruct (webhook_activation cfg pid w i p j u k t Hp Hf Hu Ht)
      as (r & w' & links & new_logs & Hrun & He & Hcase).
    eexists r, w', _, new_logs. split; [exact Hrun|]. split; [exact He|].
    destruct Hcase as [[_ ->]|(_ & -> & _)]; [right|left]; by eexists.
  - destruct (webhook_missing cfg pid w i p Hp Hf (or_intror Ht)) as (w' & Hrun & He).
    eexists (Return Backend.ok), w', id, _. split; [exact Hrun|].
    assert (panel w' = panel w) as Hpn by apply He.
    rewrite Hpn. split; [exact He|left; by eexists].
  - destruct (webhook_missing cfg pid w i p Hp Hf (or_introl Hu)) as (w' & Hrun & He).
    eexists (Return Backend.ok), w', id, _. split; [exact Hrun|].
    assert (panel w' = panel w) as Hpn by apply He.
    rewrite Hpn. split; [exact He|left; by eexists].
Qed.

End Succeeded.






(** C2, amended.  The handler has no terminal-state check: for every
    stored payment, whatever its stored status, a delivery stores the
    delivered status; [paid_at] is assigned at every delivery of succeeded,
    to the clock reading of that delivery, and is left as it was by a
    delivery of any other status.  The change is committed. *)
Theorem every_delivery_overwrites_status
    `{RT : PyRuntime} `{PN : Xui.Panel} (cfg : Backend.Config)
    (payment_id status : string) (w : World) (i : nat) (p : Payment.t) :
  payment_id ≠ ""%string → status ≠ ""%string →
  Backend.first_payment payment_id (live (db w)) = Some (i, p) →
  let w' := (Backend.yookassa_webhook cfg (Backend.notification payment_id status) w).2 in
  ∃ p', payments (live (db w')) !! i = Some p'
        ∧ Payment.status p' = status
        ∧ Payment.paid_at p'
          = (if bool_decide (status = "succeeded"%string) then Some (reading w 0)
             else Payment.paid_at p)
        ∧ durable (db w') = live (db w').
Proof.
  intros Hp Hs Hf. cbv zeta.
  pose proof (first_payment_lookup _ _ _ _ Hf) as [Hi _].
  destruct (decide (status = "succeeded"%string)) as [->|Hne].
  - destruct (webhook_succeeded cfg payment_id w i p Hp Hf)
      as (r & w' & fu & new_logs & -> & (_ & Hpay & _ & _ & Hd & _) & _).
    cbn [snd]. exists (paid (reading w 0) p). rewrite Hpay.
    split; [by apply lookup_alter_Some|]. by rewrite bool_decide_true.
  - destruct (webhook_other cfg payment_id status w i p Hp Hs Hne Hf)
      as (w' & -> & _ & Hpay & _ & _ & Hd & _).
    cbn [snd]. exists (Backend.set_status status p). rewrite Hpay.
    split; [by apply lookup_alter_Some|]. by rewrite bool_decide_false.
Qed.

(** C2 as stated fails: the paid payment of the scenario becomes canceled
    when a canceled notification follows, and a second succeeded
    notification moves its [paid_at]. *)
Lemma terminal_status_is_overwritten :
  (@Payment.status whole_runtime <$> payments (live (db Scenario.first_purchase)) !! 0%nat)
    = Some "succeeded"%string
  ∧ (@Payment.status whole_runtime
       <$> payments (live (db Scenario.canceled_afterwards)) !! 0%nat)
    = Some "canceled"%string
  ∧ (@Payment.paid_at whole_runtime <$> payments (live (db Scenario.first_purchase)) !! 0%nat)
    = Some (Some Scenario.T0)
  ∧ (@Payment.paid_at whole_runtime <$> payments (live (db Scenario.redelivered)) !! 0%nat)
    = Some (Some (Scenario.T0 + 3))
  ∧ payments (live (db Scenario.canceled_afterwards))
    ≠ payments (live (db Scenario.first_purchase))
  ∧ payments (live (db Scenario.redelivered))
    ≠ payments (live (db Scenario.first_purchase)).
Proof.
  split_and!; try (vm_compute; reflexivity).
  - intros H.
    apply (f_equal (λ l, @Payment.status whole_runtime <$> l !! 0%nat)) in H.
    vm_compute in H. discriminate H.
  - intros H.
    apply (f_equal (λ l, @Payment.paid_at whole_runtime <$> l !! 0%nat)) in H.
    vm_compute in H. discriminate H.
Qed.

Lemma every_delivery_overwrites_status_witness :
  Backend.first_payment "pay-1" (live (db Scenario.first_purchase))
    = Some (0%nat, paid Scenario.T0 Scenario.payment)
  ∧ ∃ p', payments (live (db Scenario.canceled_afterwards)) !! 0%nat = Some p'
          ∧ @Payment.status whole_runtime p' = "canceled"%string
          ∧ @Payment.paid_at whole_runtime p' = Some Scenario.T0.
Proof.
  split; [reflexivity|].
  destruct (@every_delivery_overwrites_status whole_runtime panel_up Scenario.cfg
              "pay-1" "canceled" Scenario.first_purchase 0%nat
              (paid Scenario.T0 Scenario.payment))
    as (p' & Hp' & Hs & Hpaid & _); [discriminate|discriminate|reflexivity|].
  exists p'. split; [exact Hp'|]. split; [exact Hs|exact Hpaid].
Defined.




(** ** Claims about the extension arithmetic *)

Section Extension.
Context `{RT : PyRuntime} `{PN : Xui.Panel}.



End Extension.



(** ** Provisioning failure and the ledger *)




(** ** Claims about the bot's extension dialogue *)

Section DayCount.
Context `{RT : PyRuntime}.

Lemma days_of_Return text days :
  Bot.days_of (Some text) = Return days ↔ Py.int text = Some days ∧ 1 ≤ days ≤ 365.
Proof.
  unfold Bot.days_of. destruct (Py.int text) as [d|]; [|by split; [|intros []]].
  destruct (Z.ltb_spec d 1), (Z.gtb_spec d 365); cbn; split;
    first [ intros [? ?]; simplify_eq; first [lia | done]
          | intros ?; simplify_eq; split; [done|lia]
          | done ].
Qed.

Lemma days_of_Raise text :
  ¬ in_range text → Bot.days_of (Some text) = Raise Py.ValueError.
Proof.
  intros Hout. unfold Bot.days_of. destruct (Py.int text) as [d|] eqn:E; [|done].
  destruct (d <? 1) eqn:E1; [done|]. destruct (d >? 365) eqn:E2; [done|].
  destruct Hout. exists d. split; [done|lia].
Qed.

Lemma process_extend_days_rejects text tariffs chat :
  Bot.process_extend_days (Some text) tariffs chat = rejected chat ↔ ¬ in_range text.
Proof.
  split.
  - intros Hrun (days & Hint & Hrange).
    unfold Bot.process_extend_days in Hrun.
    rewrite (proj2 (days_of_Return text days)) in Hrun by done.
    unfold Bot.quote, rejected in Hrun.
    destruct tariffs as [[|first rest]|];
      [| destruct (bool_decide (Bot.duration_days first = 0)) |];
      simplify_eq; by simplify_list_eq.
  - intros Hout. unfold Bot.process_extend_days. by rewrite days_of_Raise.
Qed.

Lemma process_extend_days_offers text days first rest chat :
  Py.int text = Some days → 1 ≤ days ≤ 365 → Bot.duration_days first ≠ 0 →
  Bot.process_extend_days (Some text) (Some (first :: rest)) chat
  = (Return (),
     {| Bot.state := None;
        Bot.sent := Bot.sent chat
          ++ [Bot.Offer days
                (float_mul
                   (float_truediv (Bot.price first) (float_of_int (Bot.duration_days first)))
                   (float_of_int days))] |}).
Proof.
  intros Hint Hrange Hd. unfold Bot.process_extend_days.
  rewrite (proj2 (days_of_Return text days)) by done.
  unfold Bot.quote. by rewrite bool_decide_false.
Qed.

End DayCount.

(** C9. In the extension dialogue a typed day count passes validation
    exactly when [int] parses it to a number between 1 and 365 inclusive;
    otherwise the bot answers with the validation message and the chat is
    idle again, which is what happens to 0, to 400 and to text that is no
    number, while 365 passes.  For an accepted count the offered price is
    the first listed tariff's price divided by its duration, times the
    count, and the chat is idle again. *)
Theorem extension_day_count_is_validated `{RT : PyRuntime} :
  (∀ text days,
     Bot.days_of (Some text) = Return days ↔ Py.int text = Some days ∧ 1 ≤ days ≤ 365)
  ∧ (∀ text tariffs chat,
       Bot.process_extend_days (Some text) tariffs chat = rejected chat
       ↔ ¬ ∃ days, Py.int text = Some days ∧ 1 ≤ days ≤ 365)
  ∧ (∀ tariffs chat,
       Bot.process_extend_days (Some "0"%string) tariffs chat = rejected chat
       ∧ Bot.process_extend_days (Some "400"%string) tariffs chat = rejected chat
       ∧ Bot.process_extend_days (Some "abc"%string) tariffs chat = rejected chat)
  ∧ Bot.days_of (Some "365"%string) = Return 365
  ∧ (∀ text days first rest chat,
       Py.int text = Some days → 1 ≤ days ≤ 365 → Bot.duration_days first ≠ 0 →
       Bot.process_extend_days (Some text) (Some (first :: rest)) chat
       = (Return (),
          {| Bot.state := None;
             Bot.sent := Bot.sent chat
               ++ [Bot.Offer days
                     (float_mul
                        (float_truediv (Bot.price first)
                           (float_of_int (Bot.duration_days first)))
                        (float_of_int days))] |})).
Proof.
  split_and!.
  - apply days_of_Return.
  - apply process_extend_days_rejects.
  - intros tariffs chat. split_and!; reflexivity.
  - reflexivity.
  - apply process_extend_days_offers.
Qed.

(** With a tariff of 300 for 30 days, 365 days are offered for 3650. *)
Lemma extension_day_count_is_validated_witness :
  Bot.state Scenario.asked = Some Bot.waiting_for_days
  ∧ Bot.process_extend_days (Some "365"%string) (Some [Scenario.listed_tariff])
      Scenario.asked
    = (Return (),
       {| Bot.state := None;
          Bot.sent := [Bot.AskDays; @Bot.Offer whole_runtime 365 3650] |}).
Proof.
  split; [reflexivity|].
  refine (proj2 (proj2 (proj2 (proj2 (@extension_day_count_is_validated whole_runtime))))
            "365"%string 365 Scenario.listed_tariff [] Scenario.asked eq_refl _ _).
  - lia.
  - discriminate.
Defined.

(** A message without text is not caught by [except ValueError]: the
    handler raises [TypeError] and the chat keeps waiting for a count. *)
Example message_without_text :
  ∀ tariffs chat,
    @Bot.process_extend_days whole_runtime None tariffs chat = (Raise Py.TypeError, chat).
Proof. reflexivity. Qed.

(** * Further properties of the code *)

(** ** The requests of [create_or_update_client] *)

Section Journal.
Context `{RT : PyRuntime} (P : Xui.Panel).



End Journal.


(** ** What a delivery leaves alone *)

Section Finding.
Context {A : Type} (P : A → Prop) `{∀ x, Decision (P x)}.


Lemma list_find_alter_fst (f : A → A) (l : list A) i :
  (∀ x, P (f x) ↔ P x) →
  fst <$> list_find P (alter f i l) = fst <$> list_find P l.
Proof.
  intros Hf. revert i. induction l as [|x l IH]; intros i; [done|].
  destruct i as [|i]; cbn.
  - destruct (decide (P x)) as [Hx|Hx].
    + by rewrite decide_True by (by apply Hf).
    + by rewrite decide_False by (by rewrite Hf).
  - destruct (decide (P x)); [done|].
    specialize (IH i).
    destruct (list_find P (alter f i l)) as [[? ?]|],
      (list_find P l) as [[? ?]|]; cbn in *; congruence.
Qed.

Lemma Forall2_alter_related (R : A → A → Prop) (f : A → A) (l : list A) i :
  (∀ x, R x x) → (∀ x, R x (f x)) → Forall2 R l (alter f i l).
Proof.
  intros Hrefl Hf. revert i. induction l as [|x l IH]; intros [|i]; cbn;
    constructor; auto.
  clear IH. induction l; constructor; auto.
Qed.

End Finding.

Section Shape.
Context `{RT : PyRuntime} `{PN : Xui.Panel}.
Implicit Types (cfg : Backend.Config) (w : World) (pid st : string).

Lemma same_payment_keys_refl (p : Payment.t) : same_payment_keys p p.
Proof. by repeat split. Qed.

Lemma same_user_keys_refl (u : User.t) : same_user_keys u u.
Proof. by repeat split. Qed.

Lemma renewed_keys links end_date price (u : User.t) :
  same_user_keys u (relinked links (renewed end_date price u)).
Proof. by destruct links. Qed.

(** Every delivery, whatever the body, rewrites at most one payment row
    and one user row, by functions that keep the key columns. *)
Lemma webhook_shape cfg request w :
  ∃ r w' i j fp fu new_logs,
    Backend.yookassa_webhook cfg request w = (r, w')
    ∧ effect w w' (alter fu j) (alter fp i) new_logs (panel w')
    ∧ (∀ p, same_payment_keys p (fp p))
    ∧ (∀ u, same_user_keys u (fu u)).
Proof.
  assert (∀ {B} (l : list B), alter id 0%nat l = l) as Hid
    by (intros B l; by apply list_alter_id).
  assert (∀ r w' fp i new_logs,
      Backend.yookassa_webhook cfg request w = (r, w') →
      effect w w' id (alter fp i) new_logs (panel w) →
      (∀ p, same_payment_keys p (fp p)) →
      ∃ r w' i j fp fu new_logs,
        Backend.yookassa_webhook cfg request w = (r, w')
        ∧ effect w w' (alter fu j) (alter fp i) new_logs (panel w')
        ∧ (∀ p, same_payment_keys p (fp p))
        ∧ (∀ u, same_user_keys u (fu u))) as Hnouser.
  { intros r w' fp i new_logs Hrun He Hfp.
    exists r, w', i, 0%nat, fp, id, new_logs. split; [done|].
    split; [|split; [done|apply same_user_keys_refl]].
    destruct He as (Hu & Hp & Ht & Hl & Hd & Hpn & Hc).
    unfold effect. rewrite Hid, Hpn. by repeat split. }
  destruct (rejection request) as [e|] eqn:Hr.
  { destruct (webhook_rejects cfg request e w Hr) as (w' & Hrun & He).
    eapply (Hnouser _ _ id 0%nat); [done| |apply same_payment_keys_refl].
    destruct He as (Hu & Hp & Ht & Hl & Hd & Hpn & Hc).
    unfold effect. rewrite Hid. by repeat split. }
  destruct (rejection_none request Hr) as (pid & st & -> & Hp & Hs).
  destruct (Backend.first_payment pid (live (db w))) as [[i p]|] eqn:Hf.
  - destruct (decide (st = "succeeded"%string)) as [->|Hne].
    + destruct (Backend.first_user (Payment.user_id p) (live (db w)))
        as [[j u]|] eqn:Hu;
        [destruct (Backend.first_tariff (Payment.tariff_id p) (live (db w)))
           as [[k t]|] eqn:Ht|].
      * destruct (webhook_activation cfg pid w i p j u k t Hp Hf Hu Ht)
          as (r & w' & links & new_logs & Hrun & He & _).
        eexists r, w', i, j, _, _, new_logs. split; [done|]. split; [exact He|].
        split; [by repeat split|]. intros u0. apply renewed_keys.
      * destruct (webhook_missing cfg pid w i p Hp Hf (or_intror Ht)) as (w' & Hrun & He).
        eapply Hnouser; [done..|]. by repeat split.
      * destruct (webhook_missing cfg pid w i p Hp Hf (or_introl Hu)) as (w' & Hrun & He).
        eapply Hnouser; [done..|]. by repeat split.
    + destruct (webhook_other cfg pid st w i p Hp Hs Hne Hf) as (w' & Hrun & He).
      eapply Hnouser; [done..|]. by repeat split.
  - destruct (webhook_unknown cfg pid st w Hp Hs Hf) as (w' & Hrun & He).
    eapply (Hnouser _ _ id 0%nat); [done| |apply same_payment_keys_refl].
    destruct He as (Hu & Hpay & Ht & Hl & Hd & Hpn & Hc).
    unfold effect. rewrite Hid. by repeat split.
Qed.

End Shape.

(** X2. Whatever the body of the request, one run of the webhook never
    adds or removes a payment or user row and never touches a tariff: it
    rewrites at most one payment row and at most one user row, keeps the
    key columns of every row (ids, gateway identifier, owner, tariff,
    amount, telegram id, email), only appends to the log, and leaves
    nothing uncommitted. *)
Theorem webhook_rewrites_at_most_one_row_per_table
    `{RT : PyRuntime} `{PN : Xui.Panel} (cfg : Backend.Config)
    (request : Backend.Body) (w : World) :
  let w' := (Backend.yookassa_webhook cfg request w).2 in
  tariffs (live (db w')) = tariffs (live (db w))
  ∧ logs (live (db w)) `prefix_of` logs (live (db w'))
  ∧ durable (db w') = live (db w')
  ∧ (∃ i, ∀ k, k ≠ i → payments (live (db w')) !! k = payments (live (db w)) !! k)
  ∧ (∃ j, ∀ k, k ≠ j → users (live (db w')) !! k = users (live (db w)) !! k)
  ∧ Forall2 same_payment_keys (payments (live (db w))) (payments (live (db w')))
  ∧ Forall2 same_user_keys (users (live (db w))) (users (live (db w'))).
Proof.
  destruct (webhook_shape cfg request w)
    as (r & w' & i & j & fp & fu & new_logs & Hrun & He & Hfp & Hfu).
  cbv zeta. rewrite Hrun. cbn [snd].
  destruct He as (Hu & Hp & Ht & Hl & Hd & _ & _).
  rewrite Hu, Hp, Ht, Hl. split_and!; try done.
  - by eexists.
  - exists i. intros k Hk. by apply list_lookup_alter_ne.
  - exists j. intros k Hk. by apply list_lookup_alter_ne.
  - apply Forall2_alter_related; [apply same_payment_keys_refl|done].
  - apply Forall2_alter_related; [apply same_user_keys_refl|done].
Qed.

(** X3. A delivery never changes which row a later lookup finds: after any
    run of the webhook, the search by gateway identifier and the search by
    user id stop at the same positions as before. *)
Theorem webhook_keeps_lookup_positions
    `{RT : PyRuntime} `{PN : Xui.Panel} (cfg : Backend.Config)
    (request : Backend.Body) (w : World) :
  let w' := (Backend.yookassa_webhook cfg request w).2 in
  (∀ payment_id,
     fst <$> Backend.first_payment payment_id (live (db w'))
     = fst <$> Backend.first_payment payment_id (live (db w)))
  ∧ (∀ user_id,
       fst <$> Backend.first_user user_id (live (db w'))
       = fst <$> Backend.first_user user_id (live (db w)))
  ∧ (∀ tariff_id,
       Backend.first_tariff tariff_id (live (db w'))
       = Backend.first_tariff tariff_id (live (db w))).
Proof.
  destruct (webhook_shape cfg request w)
    as (r & w' & i & j & fp & fu & new_logs & Hrun & He & Hfp & Hfu).
  cbv zeta. rewrite Hrun. cbn [snd].
  destruct He as (Hu & Hp & Ht & _).
  unfold Backend.first_payment, Backend.first_user, Backend.first_tariff.
  rewrite Hu, Hp, Ht. split_and!; [| |done].
  - intros pid. apply list_find_alter_fst. intros p.
    destruct (Hfp p) as (_ & -> & _). done.
  - intros uid. apply list_find_alter_fst. intros u.
    destruct (Hfu u) as (-> & _). done.
Qed.

(** ** The same notification, delivered again and again *)

Section Retries.
Context `{RT : PyRuntime} `{PN : Xui.Panel}.
Implicit Types (cfg : Backend.Config) (w : World) (pid : string).


End Retries.



(** ** Failure after the ledger was written *)





(** ** The end date after an extension *)




(** ** The admin endpoint *)




(** ** Parsing [inbound_ids] *)

Section Pieces.

Lemma list_ascii_of_string_append (a b : string) :
  list_ascii_of_string (String.append a b)
  = list_ascii_of_string a ++ list_ascii_of_string b.
Proof. induction a as [|c a IH]; simpl; [done|]. by f_equal. Qed.

Lemma split_chars_separator sep l1 l2 : ∀ piece,
  Py.split_chars sep (l1 ++ sep :: l2) piece
  = Py.split_chars sep l1 piece ++ Py.split_chars sep l2 [].
Proof.
  induction l1 as [|c l1 IH]; intros piece; cbn.
  - by rewrite Ascii.eqb_refl.
  - destruct (Ascii.eqb c sep); cbn; by rewrite IH.
Qed.

Lemma split_chars_without sep l : ∀ piece,
  sep ∉ l → Py.split_chars sep l piece = [string_of_list_ascii (rev piece ++ l)].
Proof.
  induction l as [|c l IH]; intros piece Hsep; cbn.
  - by rewrite app_nil_r.
  - destruct (Ascii.eqb_spec c sep) as [->|Hne].
    + destruct Hsep. by left.
    + rewrite IH by (intros Hin; apply Hsep; by right).
      cbn. by rewrite <- app_assoc.
Qed.

Lemma mapM_option_app {A B} (f : A → option B) (l1 l2 : list A) :
  mapM f (l1 ++ l2)
  = match mapM f l1, mapM f l2 with
    | Some x, Some y => Some (x ++ y)
    | _, _ => None
    end.
Proof.
  induction l1 as [|a l1 IH]; cbn.
  - by destruct (mapM f l2).
  - destruct (f a) as [b|]; cbn; [|done]. rewrite IH.
    by destruct (mapM f l1), (mapM f l2).
Qed.

End Pieces.

(** X10. How the webhook reads a tariff's [inbound_ids].  The text is cut
    at commas and the cuts are read independently: the ids of [a,b] are
    the ids of [a] followed by the ids of [b], and the whole list fails
    (the [ValueError] of [int]) as soon as one side fails.  A piece without
    a comma contributes nothing when it is blank and otherwise the integer
    [int] reads in it, or the failure.  The empty text gives the empty
    list. *)
Theorem inbound_ids_are_read_piece_by_piece :
  (∀ a b : string,
     Backend.inbound_id_list (String.append a (String ","%char b))
     = both_parsed (Backend.inbound_id_list a) (Backend.inbound_id_list b))
  ∧ (∀ piece : string,
       ","%char ∉ list_ascii_of_string piece →
       Backend.inbound_id_list piece
       = if Py.str_truthy (Py.strip piece)
         then (λ n, [n]) <$> Py.int (Py.strip piece)
         else Some [])
  ∧ Backend.inbound_id_list "" = Some [].
Proof.
  split_and!.
  - intros a b. unfold Backend.inbound_id_list, Py.split, both_parsed.
    rewrite list_ascii_of_string_append. cbn [list_ascii_of_string].
    rewrite split_chars_separator, List.filter_app. apply mapM_option_app.
  - intros piece Hsep. unfold Backend.inbound_id_list, Py.split.
    rewrite split_chars_without by done. cbn [rev app List.filter].
    rewrite string_of_list_ascii_of_string.
    destruct (Py.str_truthy (Py.strip piece)); [|done].
    cbn. by destruct (Py.int (Py.strip piece)).
  - reflexivity.
Qed.

Lemma inbound_ids_are_read_piece_by_piece_witness :
  Backend.inbound_id_list " 7 " = Some [7]
  ∧ Backend.inbound_id_list "1, 2,,x" = None
  ∧ Backend.inbound_id_list "1, 2,, 3 ," = Some [1; 2; 3].
Proof.
  split; [|split; [reflexivity|reflexivity]].
  refine (eq_trans (proj1 (proj2 inbound_ids_are_read_piece_by_piece) " 7 "%string _) _).
  - vm_compute. intros H. repeat (apply elem_of_cons in H as [H|H]; [discriminate H|]).
    by apply elem_of_nil in H.
  - reflexivity.
Defined.

(** ** The day-count handler, every outcome *)


(** * Further properties: the purchase handler *)

(** ** The purchase handler, path by path *)

Section Purchase.
Context `{RT : PyRuntime} `{PN : Xui.Panel} `{GW : !Yookassa.Gateway}.
Implicit Types (settings : Checkout.Settings) (keys : Checkout.Keys)
  (s : Checkout.Service) (tg : string).

Lemma no_clash_new_user tg email (us : list User.t) :
  list_find (λ u, User.telegram_id u = tg) us = None →
  Forall (λ u, User.email u ≠ email) us →
  ¬ Exists (λ u, User.telegram_id u = tg ∨ User.email u = email) us.
Proof.
  intros Hu He. apply list_find_None in Hu.
  rewrite Exists_exists. intros (u & Hin & [Hx|Hx]).
  - by eapply (proj1 (Forall_forall _ _) Hu).
  - by eapply (proj1 (Forall_forall _ _) He).
Qed.

Lemma no_clash_new_payment pid (ps : list Payment.t) :
  list_find (λ p, Payment.yookassa_payment_id p = pid) ps = None →
  ¬ Exists (λ q, Payment.yookassa_payment_id q = pid) ps.
Proof.
  intros Hp. apply list_find_None in Hp.
  rewrite Exists_exists. intros (p & Hin & Hx).
  by eapply (proj1 (Forall_forall _ _) Hp).
Qed.



(** The gateway refuses the order of a new customer: the user row is
    already committed. *)
Lemma create_payment_refused_new settings keys tid tg s k t text g' :
  Checkout.yookassa_configured settings = true →
  Backend.first_tariff tid (seen s) = Some (k, t) →
  Checkout.first_user_by_telegram tg (seen s) = None →
  Forall (λ u, User.email u ≠ local_email tg) (users (seen s)) →
  Yookassa.create (order t) (Checkout.gateway s) = (Yookassa.Refused text, g') →
  ∃ s', Checkout.create_payment settings keys tid tg s
        = (Checkout.Failed (Checkout.GatewayError text), s')
     ∧ purchase_effect s s'
         (λ us, us ++ [Checkout.new_user (Checkout.new_user_id keys) tg (local_email tg)])
         id [] g'.
Proof.
  intros Hc Ht Hu He Hg. open_service s. cbv [order local_email] in *.
  runh. rewrite Hc. runh. rewrite Ht, Hu.
  rewrite bool_decide_false by by apply no_clash_new_user.
  runh. rewrite Hg.
  eexists. split; [reflexivity|]. runh. rewrite app_nil_r. by repeat split.
Qed.

End Purchase.

(** X12. Requests the handler turns away.  Without a configured gateway
    client every request is answered 500 before anything is looked up;
    with one, an unknown tariff is answered 404.  Both leave the service
    exactly as it was: no user is registered, the gateway is not
    contacted.  When the gateway refuses the order of a customer the
    ledger knows, nothing but the gateway's own state has changed. *)
Theorem rejected_purchase_requests_touch_nothing
    `{RT : PyRuntime} `{PN : Xui.Panel} `{GW : !Yookassa.Gateway}
    (settings : Checkout.Settings) (keys : Checkout.Keys) (tid : Z) (tg : string)
    (s : Checkout.Service) :
  (Checkout.yookassa_configured settings = false →
   Checkout.create_payment settings keys tid tg s
   = (Checkout.Failed (Checkout.Exn (Py.HTTPException 500 "Yookassa not configured")),
      s))
  ∧ (Checkout.yookassa_configured settings = true →
     Backend.first_tariff tid (seen s) = None →
     Checkout.create_payment settings keys tid tg s
     = (Checkout.Failed (Checkout.Exn (Py.HTTPException 404 "Tariff not found")), s))
  ∧ (∀ k t j u text g',
       Checkout.yookassa_configured settings = true →
       Backend.first_tariff tid (seen s) = Some (k, t) →
       Checkout.first_user_by_telegram tg (seen s) = Some (j, u) →
       Yookassa.create (order t) (Checkout.gateway s) = (Yookassa.Refused text, g') →
       Checkout.create_payment settings keys tid tg s
       = (Checkout.Failed (Checkout.GatewayError text), with_gateway g' s)).
Proof.
  split; [|split].
  - intros Hc. unfold Checkout.create_payment. by rewrite Hc.
  - intros Hc Ht. open_service s. runh. by rewrite Hc, Ht.
  - intros k t j u text g' Hc Ht Hu Hg. open_service s. cbv [order local_email] in *.
    runh. by rewrite Hc, Ht, Hu, Hg.
Qed.

Lemma rejected_purchase_requests_touch_nothing_witness :
  Checkout.create_payment Shop.settings Shop.keys 5 "43" (Shop.open_with ["pay-4"%string])
  = (Checkout.Failed (Checkout.Exn (Py.HTTPException 404 "Tariff not found")),
     Shop.open_with ["pay-4"%string]).
Proof.
  apply (@rejected_purchase_requests_touch_nothing whole_runtime panel_up Shop.gateway_up
           Shop.settings Shop.keys 5 "43" (Shop.open_with ["pay-4"%string]));
    reflexivity.
Defined.

Section Composition.
Context `{RT : PyRuntime} `{PN : Xui.Panel} `{GW : !Yookassa.Gateway}.
Implicit Types (settings : Checkout.Settings) (keys : Checkout.Keys)
  (s : Checkout.Service) (tg : string).

Lemma list_find_snoc_fresh {A} (P : A → Prop) `{!∀ x, Decision (P x)} (l : list A) x :
  list_find P l = None → P x → list_find P (l ++ [x]) = Some (List.length l, x).
Proof.
  intros Hl Hx. apply list_find_Some. split; [by apply list_lookup_middle|].
  split; [done|]. intros j y Hj Hlt.
  rewrite lookup_app_l in Hj by done.
  apply list_find_None in Hl. eapply (proj1 (Forall_forall _ _) Hl).
  by eapply list_elem_of_lookup_2.
Qed.

End Composition.



(** ** Every outcome of a purchase request *)

Section Frame.
Context `{RT : PyRuntime} `{PN : Xui.Panel} `{GW : !Yookassa.Gateway}.
Implicit Types (settings : Checkout.Settings) (keys : Checkout.Keys)
  (s : Checkout.Service) (tg : string).

(** Whatever the request and the gateway's answer. *)
Lemma create_payment_frame settings keys tid tg s :
  clean s →
  let r := (Checkout.create_payment settings keys tid tg s).1 in
  let s' := (Checkout.create_payment settings keys tid tg s).2 in
  clean s' ∧ same_surroundings s s'
  ∧ (users (seen s') = users (seen s)
     ∨ (Checkout.first_user_by_telegram tg (seen s) = None
        ∧ users (seen s')
          = users (seen s)
            ++ [Checkout.new_user (Checkout.new_user_id keys) tg (local_email tg)]))
  ∧ match r with
    | Checkout.Done reply =>
        ∃ p, payments (seen s') = payments (seen s) ++ [p]
             ∧ Payment.yookassa_payment_id p = Checkout.payment_id reply
             ∧ Payment.status p = "pending"%string
             ∧ Payment.paid_at p = None
             ∧ Payment.tariff_id p = tid
             ∧ (∃ j u, Checkout.first_user_by_telegram tg (seen s') = Some (j, u)
                       ∧ Payment.user_id p = User.id u)
             ∧ Checkout.notes s'
               = Checkout.notes s
                 ++ [created_note (List.length (logs (seen s)))
                       (Checkout.payment_id reply) tg]
    | Checkout.Failed _ =>
        payments (seen s') = payments (seen s) ∧ Checkout.notes s' = Checkout.notes s
    end.
Proof.
  intros Hclean. open_service s. subst du.
  runh. destruct (Checkout.yookassa_configured settings); runh; [|by repeat split; try left].
  destruct (list_find _ ts) as [[k t]|]; runh; [|by repeat split; try left].
  destruct (list_find _ us) as [[j u]|] eqn:Hu; runh.
  - destruct (Yookassa.create _ g) as [[pay|text] g']; runh; [|by repeat split; try left].
    case_bool_decide; runh; [by repeat split; try left|].
    split; [done|]. split; [done|]. split; [by left|].
    eexists. split; [reflexivity|]. do 4 (split; [reflexivity|]).
    split; [|reflexivity]. by exists j, u.
  - case_bool_decide; runh; [by repeat split; try left|].
    destruct (Yookassa.create _ g) as [[pay|text] g']; runh;
      [|by repeat split; try right].
    case_bool_decide; runh; [by repeat split; try right|].
    split; [done|]. split; [done|]. split; [by right|].
    eexists. split; [reflexivity|]. do 4 (split; [reflexivity|]).
    split; [|reflexivity]. eexists _, _. split; [|reflexivity].
    by apply list_find_snoc_fresh.
Qed.

End Frame.



(** X15. When the gateway refuses the order of a customer the ledger did
    not know, the request fails with the gateway's error after the user
    row was committed: the customer stays registered, without payment and
    without note, and a later request for the same telegram id, whatever
    its tariff, adds no second row. *)
Theorem refused_order_leaves_the_customer_registered
    `{RT : PyRuntime} `{PN : Xui.Panel} `{GW : !Yookassa.Gateway}
    (settings : Checkout.Settings) (keys keys2 : Checkout.Keys) (tid tid2 : Z)
    (tg : string) (s : Checkout.Service) (k : nat) (t : Tariff.t) (text : string)
    (g' : Yookassa.GatewayState) :
  Checkout.yookassa_configured settings = true →
  Backend.first_tariff tid (seen s) = Some (k, t) →
  Checkout.first_user_by_telegram tg (seen s) = None →
  Forall (λ u, User.email u ≠ local_email tg) (users (seen s)) →
  Yookassa.create (order t) (Checkout.gateway s) = (Yookassa.Refused text, g') →
  ∃ s',
    Checkout.create_payment settings keys tid tg s
      = (Checkout.Failed (Checkout.GatewayError text), s')
    ∧ users (durable (db (Checkout.world s')))
      = users (seen s)
        ++ [Checkout.new_user (Checkout.new_user_id keys) tg (local_email tg)]
    ∧ payments (durable (db (Checkout.world s'))) = payments (seen s)
    ∧ Checkout.notes s' = Checkout.notes s
    ∧ users (seen (Checkout.create_payment settings keys2 tid2 tg s').2)
      = users (seen s').
Proof.
  intros Hc Ht Hu He Hg.
  destruct (create_payment_refused_new settings keys tid tg s k t text g'
              Hc Ht Hu He Hg) as (s' & Hrun & Hus & Hps & _ & Hclean & _ & Hns).
  exists s'. split; [exact Hrun|].
  unfold clean in Hclean. rewrite Hclean. fold (seen s').
  split; [exact Hus|]. split; [exact Hps|]. split; [by rewrite Hns, app_nil_r|].
  destruct (create_payment_frame settings keys2 tid2 tg s' Hclean)
    as (_ & _ & [Hsame|[Hnone _]] & _); [exact Hsame|].
  unfold Checkout.first_user_by_telegram in Hnone. rewrite Hus in Hnone.
  by rewrite (list_find_snoc_fresh _ _ _ Hu) in Hnone.
Qed.

Lemma refused_order_leaves_the_customer_registered_witness :
  ∃ s',
    Checkout.create_payment Shop.settings Shop.keys 1 "43" (Shop.open_with [])
      = (Checkout.Failed (Checkout.GatewayError "unavailable"), s')
    ∧ (@User.telegram_id whole_runtime <$> users (durable (db (Checkout.world s'))))
      = ["42"; "43"]%string
    ∧ payments (durable (db (Checkout.world s'))) = payments Scenario.ledger.
Proof.
  destruct (@refused_order_leaves_the_customer_registered whole_runtime panel_up
              Shop.gateway_up Shop.settings Shop.keys Shop.keys 1 1 "43"
              (Shop.open_with []) 0%nat Scenario.tariff "unavailable" [])
    as (s' & Hrun & Hus & Hps & _);
    [reflexivity | reflexivity | reflexivity | repeat constructor; discriminate
    | reflexivity |].
  exists s'. split; [exact Hrun|]. split; [by rewrite Hus|exact Hps].
Defined.

(** ** Telegram ids and derived addresses *)

Section Customers.
Context `{RT : PyRuntime} `{PN : Xui.Panel} `{GW : !Yookassa.Gateway}.
Implicit Types (settings : Checkout.Settings) (keys : Checkout.Keys)
  (s : Checkout.Service) (tg : string).

Lemma local_email_inj a b : local_email a = local_email b → a = b.
Proof.
  unfold local_email. intros Hab.
  apply (f_equal list_ascii_of_string) in Hab.
  rewrite !list_ascii_of_string_append in Hab.
  apply app_inv_tail in Hab.
  apply (f_equal string_of_list_ascii) in Hab.
  by rewrite !string_of_list_ascii_of_string in Hab.
Qed.

(** With derived addresses, an unknown telegram id means a free address. *)
Lemma derived_email_is_free tg (us : list User.t) :
  Forall (λ u, User.email u = local_email (User.telegram_id u)) us →
  list_find (λ u, User.telegram_id u = tg) us = None →
  ¬ Exists (λ u, User.telegram_id u = tg ∨ User.email u = local_email tg) us.
Proof.
  intros Hd Hu. apply list_find_None in Hu.
  rewrite Exists_exists. intros (u & Hin & Hx).
  apply (proj1 (Forall_forall _ _) Hu u Hin).
  destruct Hx as [Hx|Hx]; [done|].
  apply local_email_inj. rewrite <- Hx. symmetry.
  by apply (proj1 (Forall_forall _ _) Hd u Hin).
Qed.

Lemma telegram_ids_snoc tg (us : list User.t) (u : User.t) :
  User.telegram_id u = tg →
  list_find (λ u, User.telegram_id u = tg) us = None →
  NoDup (User.telegram_id <$> us) →
  NoDup (User.telegram_id <$> (us ++ [u])).
Proof.
  intros Hu Hnone Hnd. rewrite fmap_app. apply NoDup_app. split; [done|].
  split; [|apply NoDup_singleton].
  intros x Hx Hx'. apply list_elem_of_singleton in Hx'. cbn in Hx'. subst x.
  apply list_elem_of_fmap in Hx as (u' & Heq & Hin).
  apply list_find_None in Hnone.
  apply (proj1 (Forall_forall _ _) Hnone u' Hin). congruence.
Qed.

End Customers.

(** X16. The purchase handler keeps customers apart.  If every stored
    address is the one derived from the row's telegram id and no telegram
    id is stored twice, both still hold after any request, and no user
    insertion violates a unique column: the only integrity failure left is
    a payment identifier the gateway issued although a stored payment
    holds it. *)
Theorem create_payment_keeps_customers_apart
    `{RT : PyRuntime} `{PN : Xui.Panel} `{GW : !Yookassa.Gateway}
    (settings : Checkout.Settings) (keys : Checkout.Keys) (tid : Z) (tg : string)
    (s : Checkout.Service) :
  clean s →
  derived_emails (seen s) →
  NoDup (User.telegram_id <$> users (seen s)) →
  let r := (Checkout.create_payment settings keys tid tg s).1 in
  let s' := (Checkout.create_payment settings keys tid tg s).2 in
  derived_emails (seen s')
  ∧ NoDup (User.telegram_id <$> users (seen s'))
  ∧ (r = Checkout.Failed Checkout.IntegrityError →
     ∃ k t pay g',
       Backend.first_tariff tid (seen s) = Some (k, t)
       ∧ Yookassa.create (order t) (Checkout.gateway s) = (Yookassa.Accepted pay, g')
       ∧ Backend.first_payment (Yookassa.id pay) (seen s) ≠ None).
Proof.
  intros Hclean Hd Hnd. open_service s. subst du. unfold derived_emails in *.
  cbv [users] in Hd, Hnd.
  runh. destruct (Checkout.yookassa_configured settings); runh; [|done].
  destruct (list_find _ ts) as [[k t]|] eqn:Ht; runh; [|done].
  destruct (list_find _ us) as [[j u]|] eqn:Hu; runh.
  - destruct (Yookassa.create _ g) as [[pay|text] g'] eqn:Hg; runh; [|done].
    case_bool_decide as Hdup; runh; [|done].
    split; [done|]. split; [done|]. intros _. exists k, t, pay, g'.
    split; [done|]. split; [done|]. intros Hnone.
    by apply no_clash_new_payment in Hnone.
  - rewrite bool_decide_false by by apply derived_email_is_free.
    runh.
    assert (Forall (λ u, User.email u = (User.telegram_id u ++ "@vpn.local")%string)
              (us ++ [Checkout.new_user (Checkout.new_user_id keys) tg
                        (tg ++ "@vpn.local")])) as Hd'
      by (apply Forall_app; split; [done|by repeat constructor]).
    assert (NoDup (User.telegram_id
                     <$> us ++ [Checkout.new_user (Checkout.new_user_id keys) tg
                                  (tg ++ "@vpn.local")])) as Hnd'
      by by apply (telegram_ids_snoc tg).
    destruct (Yookassa.create _ g) as [[pay|text] g'] eqn:Hg; runh; [|done].
    case_bool_decide as Hdup; runh; [|done].
    split; [done|]. split; [done|]. intros _. exists k, t, pay, g'.
    split; [done|]. split; [done|]. intros Hnone.
    by apply no_clash_new_payment in Hnone.
Qed.

Lemma create_payment_keeps_customers_apart_witness :
  derived_emails (seen (Shop.open_with ["pay-4"%string]))
  ∧ NoDup (@User.telegram_id whole_runtime
             <$> users (seen (Checkout.create_payment Shop.settings Shop.keys 1 "43"
                                (Shop.open_with ["pay-4"%string])).2)).
Proof.
  assert (derived_emails (seen (Shop.open_with ["pay-4"%string]))) as Hd
    by (repeat constructor).
  split; [exact Hd|].
  apply (@create_payment_keeps_customers_apart whole_runtime panel_up Shop.gateway_up
           Shop.settings Shop.keys 1 "43" (Shop.open_with ["pay-4"%string]));
    [reflexivity | exact Hd | apply NoDup_singleton].
Defined.



(** ** The [active] flag *)

(** X18. The purchase handler never reads [Tariff.active]: with the flags
    of the tariffs rewritten in any way, the outcome is the same and the
    tables after the run are those of the run on the original flags,
    rewritten the same way.  A tariff that is not active is sold like any
    other. *)
Theorem create_payment_ignores_the_active_flag
    `{RT : PyRuntime} `{PN : Xui.Panel} `{GW : !Yookassa.Gateway}
    (settings : Checkout.Settings) (keys : Checkout.Keys) (tid : Z) (tg : string)
    (f : Tariff.t → bool) (s : Checkout.Service) :
  Checkout.create_payment settings keys tid tg (reflag f s)
  = ((Checkout.create_payment settings keys tid tg s).1,
     reflag f (Checkout.create_payment settings keys tid tg s).2).
Proof.
  open_service s. cbv [reflag reflag_store]. runh.
  destruct (Checkout.yookassa_configured settings); runh; [|done].
  rewrite list_find_fmap.
  change (list_find (_ ∘ _) ts) with (list_find (λ t, Tariff.id t = tid) ts).
  destruct (list_find _ ts) as [[k t]|]; cbn [fmap option_fmap option_map prod_map fst snd];
    runh; [|done].
  destruct (list_find _ us) as [[j u]|]; runh.
  - change (Tariff.price (set_active (f t) t)) with (Tariff.price t).
    change (Tariff.name (set_active (f t) t)) with (Tariff.name t).
    destruct (Yookassa.create _ g) as [[pay|text] g']; runh; [|done].
    case_bool_decide; runh; done.
  - case_bool_decide; runh; [done|].
    change (Tariff.price (set_active (f t) t)) with (Tariff.price t).
    change (Tariff.name (set_active (f t) t)) with (Tariff.name t).
    destruct (Yookassa.create _ g) as [[pay|text] g']; runh; [|done].
    case_bool_decide; runh; done.
Qed.

(** ** The tariff buttons *)

Section Digits.

Lemma int_digits_of_uint_acc (d : Decimal.uint) : ∀ acc : positive,
  Py.int_digits (digit_chars d) (Z.pos acc) true = Some (Z.pos (Pos.of_uint_acc d acc)).
Proof.
  unfold digit_chars.
  induction d as [|d IH|d IH|d IH|d IH|d IH|d IH|d IH|d IH|d IH|d IH]; intros acc;
    [done|..];
    cbn [NilEmpty.string_of_uint list_ascii_of_string Py.int_digits Pos.of_uint_acc];
    match goal with |- context [Py.digit_value ?c] =>
      let v := eval vm_compute in (Py.digit_value c) in
      change (Py.digit_value c) with v
    end; cbv iota; rewrite <- IH; f_equal; lia.
Qed.

Lemma int_digits_of_uint (d : Decimal.uint) : ∀ b : bool,
  d ≠ Decimal.Nil ∨ b = true →
  Py.int_digits (digit_chars d) 0 b = Some (Z.of_N (Pos.of_uint d)).
Proof.
  unfold digit_chars.
  induction d as [|d IH|d IH|d IH|d IH|d IH|d IH|d IH|d IH|d IH|d IH]; intros b Hb;
    [destruct Hb as [Hn| ->]; [by destruct Hn|reflexivity]|..];
    cbn [NilEmpty.string_of_uint list_ascii_of_string Py.int_digits Pos.of_uint];
    match goal with |- context [Py.digit_value ?c] =>
      let v := eval vm_compute in (Py.digit_value c) in
      change (Py.digit_value c) with v
    end; cbv iota;
    [apply IH; by right|..];
    match goal with |- Py.int_digits _ ?a true = _ =>
      let v := eval vm_compute in a in change a with v
    end;
    apply (int_digits_of_uint_acc d).
Qed.

Lemma chars_no_space (d : Decimal.uint) :
  Forall (λ c, Py.is_space c = false ∧ c ≠ "_"%char) (digit_chars d).
Proof.
  unfold digit_chars.
  induction d; cbn [NilEmpty.string_of_uint list_ascii_of_string];
    [constructor|..]; (constructor; [by split|done]).
Qed.

Lemma chars_head (d : Decimal.uint) :
  d ≠ Decimal.Nil →
  ∃ c l, digit_chars d = c :: l ∧ Ascii.eqb c "-" = false ∧ Ascii.eqb c "+" = false.
Proof.
  unfold digit_chars.
  destruct d; [done|..]; intros _;
    cbn [NilEmpty.string_of_uint list_ascii_of_string]; by eexists _, _.
Qed.

Lemma lstrip_no_space (l : list ascii) :
  Forall (λ c, Py.is_space c = false) l → Py.lstrip l = l.
Proof. destruct 1 as [|c l Hc _]; cbn; [done|by rewrite Hc]. Qed.

Lemma strip_no_space (l : list ascii) :
  Forall (λ c, Py.is_space c = false) l → Py.rstrip (Py.lstrip l) = l.
Proof.
  intros Hl. rewrite (lstrip_no_space l Hl). unfold Py.rstrip.
  rewrite lstrip_no_space by by apply List.Forall_rev.
  apply rev_involutive.
Qed.

(** The characters of [str n], whatever the sign. *)
Lemma str_chars (n : Z) :
  Forall (λ c, Py.is_space c = false ∧ c ≠ "_"%char)
    (list_ascii_of_string (Buttons.str n)).
Proof.
  destruct n as [|p|p]; unfold Buttons.str; cbn [Z.to_int NilZero.string_of_int].
  - by repeat constructor.
  - unfold NilZero.string_of_uint.
    pose proof (chars_no_space (Pos.to_uint p)) as H. unfold digit_chars in H.
    destruct (Pos.to_uint p); [by repeat constructor|exact H..].
  - unfold NilZero.string_of_uint.
    pose proof (chars_no_space (Pos.to_uint p)) as H. unfold digit_chars in H.
    cbn [list_ascii_of_string]. constructor; [by split|].
    destruct (Pos.to_uint p); [by repeat constructor|exact H..].
Qed.

(** [int(str(n))] is [n]. *)
Lemma int_str (n : Z) : Py.int (Buttons.str n) = Some n.
Proof.
  unfold Py.int. rewrite strip_no_space
    by (eapply Forall_impl; [apply str_chars|by intros c [? _]]).
  destruct n as [|p|p]; unfold Buttons.str; cbn [Z.to_int NilZero.string_of_int].
  - reflexivity.
  - pose proof (Unsigned.to_uint_nonnil p) as Hnil.
    pose proof (DecimalPos.Unsigned.of_to p) as Hval.
    unfold NilZero.string_of_uint.
    destruct (chars_head _ Hnil) as (c & l & Hcl & Hm & Hp).
    pose proof (int_digits_of_uint (Pos.to_uint p) false (or_introl Hnil)) as Hd.
    unfold digit_chars in Hcl, Hd.
    replace (list_ascii_of_string
               match Pos.to_uint p with
               | Decimal.Nil => "0"%string
               | _ => NilEmpty.string_of_uint (Pos.to_uint p)
               end)
      with (list_ascii_of_string (NilEmpty.string_of_uint (Pos.to_uint p)))
      by by destruct (Pos.to_uint p).
    rewrite Hcl in Hd |- *. rewrite Hm, Hp, Hd, Hval. reflexivity.
  - pose proof (Unsigned.to_uint_nonnil p) as Hnil.
    pose proof (DecimalPos.Unsigned.of_to p) as Hval.
    unfold NilZero.string_of_uint. cbn [list_ascii_of_string].
    change (Ascii.eqb "-" "-") with true. cbv iota.
    pose proof (int_digits_of_uint (Pos.to_uint p) false (or_introl Hnil)) as Hd.
    unfold digit_chars in Hd.
    replace (list_ascii_of_string
               match Pos.to_uint p with
               | Decimal.Nil => "0"%string
               | _ => NilEmpty.string_of_uint (Pos.to_uint p)
               end)
      with (list_ascii_of_string (NilEmpty.string_of_uint (Pos.to_uint p)))
      by by destruct (Pos.to_uint p).
    rewrite Hd, Hval. reflexivity.
Qed.

End Digits.

Lemma split_chars_nonempty sep (l : list ascii) : ∀ piece,
  Py.split_chars sep l piece ≠ [].
Proof.
  induction l as [|c l IH]; intros piece; cbn; [done|].
  destruct (Ascii.eqb c sep); [done|apply IH].
Qed.

(** X19. The tariff buttons.  The data behind a tariff button, [tariff_]
    and the identifier in decimal, is read back by line 96 as that
    identifier, for every integer, negative or not; and whatever follows
    [tariff_], taking the second piece never fails for want of one. *)
Theorem tariff_button_round_trip :
  (∀ id : Z, Buttons.selected_tariff (Buttons.tariff_data id) = Buttons.Selected id)
  ∧ (∀ rest : string,
       Buttons.selected_tariff (String.append "tariff_" rest) ≠ Buttons.IndexError).
Proof.
  split.
  - intros id. unfold Buttons.selected_tariff, Buttons.tariff_data, Py.split.
    rewrite list_ascii_of_string_append.
    change (list_ascii_of_string "tariff_")
      with (list_ascii_of_string "tariff" ++ ["_"%char]).
    rewrite <- app_assoc, <- cons_middle.
    rewrite split_chars_separator.
    rewrite (split_chars_without _ (list_ascii_of_string (Buttons.str id))).
    2:{ intros Hin. pose proof (str_chars id) as Hc.
        by apply (proj1 (Forall_forall _ _) Hc _ Hin). }
    cbn [rev app]. rewrite string_of_list_ascii_of_string.
    change (Py.split_chars "_" (list_ascii_of_string "tariff") [])
      with ["tariff"%string].
    cbn [app lookup list_lookup]. by rewrite int_str.
  - intros rest. unfold Buttons.selected_tariff, Py.split.
    rewrite list_ascii_of_string_append.
    change (list_ascii_of_string "tariff_")
      with (list_ascii_of_string "tariff" ++ ["_"%char]).
    rewrite <- app_assoc, <- cons_middle.
    rewrite split_chars_separator.
    change (Py.split_chars "_" (list_ascii_of_string "tariff") [])
      with ["tariff"%string].
    pose proof (split_chars_nonempty "_" (list_ascii_of_string rest) []) as Hne.
    destruct (Py.split_chars "_" (list_ascii_of_string rest) []) as [|piece pieces];
      [done|].
    cbn [app lookup list_lookup]. by destruct (Py.int piece).
Qed.
